(** * news_bot.py: the morning news digest pipeline

    A shallow embedding of [src/news_bot.py] and the properties of its
    specification.  The program reads an RSS feed, scrapes each article,
    asks a chat model for a summary and pushes one LINE message.

    Python values are modelled as follows.
    - [str] is a list of Unicode code points, so that [len] and slicing
      count what Python counts.  Literals are written as UTF-8 text and
      decoded by [u].
    - [int] is [Z]; [None]-able values are [option].
    - Exceptions are explicit: a computation returns [Ok] or [Raise].
    - Calls that leave the process (feedparser, requests, the OpenAI
      client, [time.sleep]) are answered by a [World] and recorded,
      with the entry into each of the program's own functions, in a
      trace of events.  Console output ([print]) is not modelled. *)

From Stdlib Require Import String Ascii DecimalString.
From Stdlib Require Import List ZArith NArith Bool Lia.
Import ListNotations.

Set Implicit Arguments.
Local Open Scope Z_scope.

(* ================================================================== *)
(** ** Python strings *)
(* ================================================================== *)

Module PyStr.

Definition char := N.
Definition str := list char.

Definition LF : char := 10%N.

(** UTF-8 decoding of a literal; [fuel] bounds the number of code points. *)
Fixpoint utf8_decode (fuel : nat) (bs : list N) : str :=
  match fuel with
  | O => []
  | S fuel =>
    match bs with
    | [] => []
    | b0 :: r0 =>
      if (b0 <? 0x80)%N then b0 :: utf8_decode fuel r0
      else if (b0 <? 0xE0)%N then
        match r0 with
        | b1 :: r1 =>
            ((b0 - 0xC0) * 64 + (b1 - 0x80))%N :: utf8_decode fuel r1
        | _ => []
        end
      else if (b0 <? 0xF0)%N then
        match r0 with
        | b1 :: b2 :: r2 =>
            ((b0 - 0xE0) * 4096 + (b1 - 0x80) * 64 + (b2 - 0x80))%N
              :: utf8_decode fuel r2
        | _ => []
        end
      else
        match r0 with
        | b1 :: b2 :: b3 :: r3 =>
            ((b0 - 0xF0) * 262144 + (b1 - 0x80) * 4096
             + (b2 - 0x80) * 64 + (b3 - 0x80))%N
              :: utf8_decode fuel r3
        | _ => []
        end
    end
  end.

(** The Python literal written as the UTF-8 text [s]. *)
Definition u (s : string) : str :=
  let bs := map N_of_ascii (list_ascii_of_string s) in
  utf8_decode (length bs) bs.

(** [len(l)] *)
Definition len {A} (l : list A) : Z := Z.of_nat (length l).

(** [l[:stop]]: a negative [stop] counts from the end. *)
Definition slice_to {A} (l : list A) (stop : Z) : list A :=
  if stop <? 0 then firstn (Z.to_nat (len l + stop)) l
  else firstn (Z.to_nat stop) l.

(** [s.startswith(p)] *)
Fixpoint startswith (s p : str) {struct p} : bool :=
  match p, s with
  | [], _ => true
  | _ :: _, [] => false
  | c :: p', d :: s' => (c =? d)%N && startswith s' p'
  end.

(** [x in s] for strings *)
Fixpoint str_in (x s : str) : bool :=
  startswith s x
  || match s with
     | [] => false
     | _ :: s' => str_in x s'
     end.

(** [sep.join(l)] *)
Fixpoint join (sep : str) (l : list str) : str :=
  match l with
  | [] => []
  | x :: r =>
    match r with
    | [] => x
    | _ :: _ => x ++ sep ++ join sep r
    end
  end.

(** The code points [str.strip()] removes (those with [c.isspace()]). *)
Definition isspace (c : char) : bool :=
  ((9 <=? c) && (c <=? 13) || (28 <=? c) && (c <=? 32)
   || (c =? 0x85) || (c =? 0xA0) || (c =? 0x1680)
   || (0x2000 <=? c) && (c <=? 0x200A)
   || (c =? 0x2028) || (c =? 0x2029) || (c =? 0x202F)
   || (c =? 0x205F) || (c =? 0x3000))%N.

Fixpoint lstrip (s : str) : str :=
  match s with
  | [] => []
  | c :: r => if isspace c then lstrip r else s
  end.

(** [s.strip()] *)
Definition strip (s : str) : str := rev (lstrip (rev (lstrip s))).

(** [str(n)] for an [int] *)
Definition str_of_int (n : Z) : str :=
  map N_of_ascii (list_ascii_of_string (NilEmpty.string_of_int (Z.to_int n))).

(** Truth value of a list ([if l:]) and of a possibly-[None] string. *)
Definition truthy_list {A} (l : list A) : bool :=
  match l with [] => false | _ :: _ => true end.

Definition truthy (s : option str) : bool :=
  match s with
  | None => false
  | Some t => truthy_list t
  end.

(** The value of a string variable known not to be [None]. *)
Definition the (s : option str) : str :=
  match s with Some t => t | None => [] end.

(** [x] occurs in [s] as a contiguous run of code points. *)
Definition contains (s x : str) : Prop :=
  exists pre post, s = pre ++ x ++ post.

End PyStr.
Import PyStr.

(* ================================================================== *)
(** ** Exceptions, events and the effect monad *)
(* ================================================================== *)

(** The exceptions the program distinguishes: its handlers name
    [requests.exceptions.RequestException] and [Exception].  The second
    constructor stands for an [Exception] that is not a
    [RequestException]; [msg] is [str(e)]. *)
Inductive exn :=
| RequestException (msg : str)
| Exception (msg : str).

Definition exn_str (e : exn) : str :=
  match e with
  | RequestException m => m
  | Exception m => m
  end.

Definition is_RequestException (e : exn) : bool :=
  match e with
  | RequestException _ => true
  | Exception _ => false
  end.

Inductive Result (A : Type) :=
| Ok (a : A)
| Raise (e : exn).
Arguments Ok {A} a.
Arguments Raise {A} e.

(** One entry of feedparser's [feed.entries], by the two attributes
    read.  A feed entry need not have a title or a link: the attribute
    is then missing, [None] here, and reading it raises. *)
Record Entry := { entry_title : option str; entry_link : option str }.

(** The dicts of [news_list]: [{'title': ..., 'url': ...}]. *)
Record NewsItem := { title : str; url : str }.

(** A [requests.Response]: what the program and [raise_for_status] read. *)
Record Response := {
  status_code : Z;
  reason : str;
  response_url : str;
  content : list N
}.

(** A [<p>] element: [p.get_text(strip=True)]. *)
Record Paragraph := { p_get_text : str }.

(** A parsed page, [BeautifulSoup(content, 'html.parser')], by the
    queries the program makes of it. *)
Record Soup := {
  (** [soup.find_all('p', class_=f)] *)
  find_all_p_class : (option str -> bool) -> list Paragraph;
  (** [soup.find('div', class_='article_body')], as the [find_all('p')]
      of the element found *)
  find_div_article_body : option (list Paragraph);
  (** [soup.find('main')], as the [get_text(separator='\n', strip=True)]
      of the element found *)
  find_main : option str;
  (** [soup.get_text(separator='\n', strip=True)] *)
  soup_get_text : str
}.

(** The request of [openai_client.chat.completions.create]. *)
Record ChatRequest := {
  model : str;
  messages : list (str * str);   (* role, content *)
  temperature : str              (* the literal, as written *)
}.

(** The JSON body of the push request. *)
Record TextMessage := { msg_type : str; msg_text : str }.
Record PushBody := { to : str; push_messages : list TextMessage }.

Inductive event :=
(* entry into the program's functions *)
| Enter_get_latest_news_from_rss (rss_url : str) (count : Z)
| Enter_scrape_article_body (url : str)
| Enter_summarize_and_add_furigana (title : str) (article_text : option str)
| Enter_send_line_message
    (user_id : option str) (message : str) (token : option str)
(* calls that leave the process *)
| Do_feedparser_parse (rss_url : str)
| Do_requests_get (url : str) (timeout : Z)
| Do_chat_completions_create (req : ChatRequest)
| Do_requests_post (url : str) (headers : list (str * str)) (json : PushBody)
| Do_time_sleep (seconds : Z).

(** A computation: its outcome and the events it performed, in order. *)
Definition M (A : Type) : Type := Result A * list event.

Definition ret {A} (a : A) : M A := (Ok a, []).

Definition bind {A B} (m : M A) (k : A -> M B) : M B :=
  match m with
  | (Ok a, t) => let (r, t') := k a in (r, t ++ t')
  | (Raise e, t) => (Raise e, t)
  end.

Definition raise {A} (e : exn) : M A := (Raise e, []).

Definition emit (ev : event) : M unit := (Ok tt, [ev]).

(** [try: body  except <class> as e: handler e], where [catches e] tells
    whether the [except] clause matches. *)
Definition try_except {A}
    (body : M A) (catches : exn -> bool) (handler : exn -> M A) : M A :=
  match body with
  | (Raise e, t) =>
      if catches e then let (r, t') := handler e in (r, t ++ t')
      else (Raise e, t)
  | ok => ok
  end.

(** An external call: recorded, then answered. *)
Definition external {A} (ev : event) (answer : Result A) : M A :=
  (answer, [ev]).

(** [for x in l: s = body s x] *)
Fixpoint for_each {A S : Type}
    (body : S -> A -> M S) (l : list A) (s : S) : M S :=
  match l with
  | [] => ret s
  | x :: r => bind (body s x) (for_each body r)
  end.

Definition outcome {A} (m : M A) : Result A := fst m.
Definition trace {A} (m : M A) : list event := snd m.

Declare Scope py_scope.
Delimit Scope py_scope with py.
Notation "x <- c ;; k" := (bind c (fun x => k))
  (at level 100, c at next level, right associativity) : py_scope.
Notation "c ;;; k" := (bind c (fun _ => k))
  (at level 100, right associativity) : py_scope.

(** [for i, x in enumerate(l): s = body i x s], counting from [i]. *)
Fixpoint for_enumerate {A S : Type}
    (body : Z -> A -> S -> M S) (i : Z) (l : list A) (s : S) : M S :=
  match l with
  | [] => ret s
  | x :: r => bind (body i x s) (for_enumerate body (i + 1) r)
  end.

(* ================================================================== *)
(** ** The world outside the process *)
(* ================================================================== *)

(** The environment of one run: the configuration read at start-up and
    the answer to each external request.  [OPENAI_API_KEY] does not
    appear: without it the module exits before [main]. *)
Record World := {
  YAHOO_RSS_URL : str;
  LINE_USER_ID : option str;
  LINE_CHANNEL_ACCESS_TOKEN : option str;
  (** [feedparser.parse(url).entries] *)
  feedparser_parse : str -> Result (list Entry);
  (** [requests.get(url, timeout=...)] *)
  requests_get : str -> Z -> Result Response;
  (** [BeautifulSoup(content, 'html.parser')] *)
  BeautifulSoup : list N -> Result Soup;
  (** [openai_client.chat.completions.create(...)], as the
      [message.content] of each of [response.choices] *)
  chat_completions_create : ChatRequest -> Result (list (option str));
  (** [requests.post(url, headers=..., json=...)] *)
  requests_post : str -> list (str * str) -> PushBody -> Result Response
}.

(* ================================================================== *)
(** ** Library calls with a fixed meaning *)
(* ================================================================== *)

Local Open Scope py_scope.

(** [response.raise_for_status()]: requests raises [HTTPError], a
    [RequestException], for a status from 400 to 599 and for no other. *)
Definition raise_for_status (response : Response) : M unit :=
  let code := status_code response in
  if (400 <=? code) && (code <? 500) then
    raise (RequestException
             (str_of_int code ++ u " Client Error: " ++ reason response
              ++ u " for url: " ++ response_url response))
  else if (500 <=? code) && (code <? 600) then
    raise (RequestException
             (str_of_int code ++ u " Server Error: " ++ reason response
              ++ u " for url: " ++ response_url response))
  else ret tt.

(** [entry.name] of a feedparser entry: an attribute the entry lacks
    raises [AttributeError]. *)
Definition attribute (name : str) (value : option str) : M str :=
  match value with
  | Some v => ret v
  | None =>
      raise (Exception (u "object has no attribute '" ++ name ++ u "'"))
  end.

(** [l[0]], which raises [IndexError] on an empty list. *)
Definition index0 {A} (l : list A) : M A :=
  match l with
  | x :: _ => ret x
  | [] => raise (Exception (u "list index out of range"))
  end.

(** [s.strip()] of a value that may be [None] ([AttributeError]). *)
Definition strip_method (s : option str) : M str :=
  match s with
  | Some t => ret (strip t)
  | None =>
      raise (Exception (u "'NoneType' object has no attribute 'strip'"))
  end.

(* ================================================================== *)
(** ** The program *)
(* ================================================================== *)

Section Program.

Variable w : World.

(** *** [get_latest_news_from_rss] *)

(** The body of the loop over [feed.entries[:count]]: the dict is built
    from [entry.title] and [entry.link], read in this order, and
    appended. *)
Definition append_entry (news_list : list NewsItem) (entry : Entry)
  : M (list NewsItem) :=
  the_title <- attribute (u "title") (entry_title entry) ;;
  the_link <- attribute (u "link") (entry_link entry) ;;
  ret (news_list ++ [ {| title := the_title; url := the_link |} ]).

Definition get_latest_news_from_rss (rss_url : str) (count : Z)
  : M (list NewsItem) :=
  emit (Enter_get_latest_news_from_rss rss_url count) ;;;
  try_except
    (entries <- external (Do_feedparser_parse rss_url)
                         (feedparser_parse w rss_url) ;;
     if negb (truthy_list entries) then ret []
     else
       for_each append_entry (slice_to entries count) [])
    (fun _ => true)
    (fun _ => ret []).

(** *** [scrape_article_body] *)

(** [lambda x: x and ('sc-' in x or 'article_body' in x)] *)
Definition body_class (x : option str) : bool :=
  truthy x && (str_in (u "sc-") (the x) || str_in (u "article_body") (the x)).

Definition MAX_CHARS : Z := 3000.

Definition scrape_article_body (url : str) : M (option str) :=
  emit (Enter_scrape_article_body url) ;;;
  try_except
    (response <- external (Do_requests_get url 10) (requests_get w url 10) ;;
     raise_for_status response ;;;
     soup <- (BeautifulSoup w (content response), []) ;;
     let paragraphs := find_all_p_class soup body_class in
     let paragraphs :=
       if negb (truthy_list paragraphs) then
         match find_div_article_body soup with
         | Some div_paragraphs => div_paragraphs
         | None => paragraphs
         end
       else paragraphs in
     if negb (truthy_list paragraphs) then
       ret (Some match find_main soup with
                 | Some main_text => main_text
                 | None => soup_get_text soup
                 end)
     else
       let article_text :=
         join [LF]
              (map p_get_text
                   (filter (fun p => truthy_list (p_get_text p)) paragraphs)) in
       let article_text :=
         if len article_text >? MAX_CHARS
         then slice_to article_text MAX_CHARS ++ u "..."
         else article_text in
       ret (Some article_text))
    (fun _ => true)
    (fun _ => ret None).

(** *** [summarize_and_add_furigana] *)

Definition no_text_message : str :=
  u "記事本文が見つからなかったため、要約できませんでした。".

(** The lines of the prompt template before the title; each stands
    after a line break and four spaces. *)
Definition prompt_lines : list str := map u [
  "以下のニュース記事のタイトルと本文を読み、以下の要件を満たすテキストを生成してください。";
  "";
  "【要件】";
  "1. 記事の内容を**3行以内**で、分かりやすく**要約**してください。";
  "2. 要約文の中で、**難しい漢字、専門用語、人名、地名**にのみ、括弧書きで**フリガナ**を付けてください。全ての漢字にフリガナを付ける必要はありません。";
  "3. 記事本文に含まれる**難しい専門用語**や**馴染みの薄い単語**があれば、その**意味を簡潔に**一行で補足してください（補足がない場合は[単語解説]セクション自体を省略してください）。";
  "";
  "【出力フォーマット】";
  "[要約]";
  "要約テキスト1行目（フリガナを適切に付与）";
  "要約テキスト2行目";
  "要約テキスト3行目";
  "";
  "[単語解説]";
  "（補足が必要な場合のみ記載）単語: 意味";
  "";
  "---";
  "";
  "【記事タイトル】"
]%string.

Definition indent : str := LF :: u "    ".

Definition make_prompt (title article_text : str) : str :=
  concat (map (fun l => indent ++ l) prompt_lines)
  ++ indent ++ title
  ++ indent ++ indent ++ u "【記事本文】" ++ indent ++ article_text
  ++ indent.

Definition system_message : str :=
  u "あなたはプロのニュースキャスターです。情報を正確かつ簡潔に、親しみやすい言葉で伝えてください。フリガナは難しい単語のみに絞ってください。".

Definition chat_request (title article_text : str) : ChatRequest :=
  {| model := u "gpt-3.5-turbo";
     messages := [ (u "system", system_message);
                   (u "user", make_prompt title article_text) ];
     temperature := u "0.3" |}.

Definition api_error_prefix : str :=
  u "要約生成中にエラーが発生しました。" ++ [LF] ++ u "エラー内容: ".

Definition summarize_and_add_furigana (title : str) (article_text : option str)
  : M str :=
  emit (Enter_summarize_and_add_furigana title article_text) ;;;
  if negb (truthy article_text) then ret no_text_message
  else
    let req := chat_request title (the article_text) in
    try_except
      (choices <- external (Do_chat_completions_create req)
                           (chat_completions_create w req) ;;
       choice0 <- index0 choices ;;
       generated_text <- strip_method choice0 ;;
       ret generated_text)
      (fun _ => true)
      (fun e => ret (api_error_prefix ++ exn_str e)).

(** *** [send_line_message] *)

Definition push_url : str := u "https://api.line.me/v2/bot/message/push".

Definition push_headers (token : str) : list (str * str) :=
  [ (u "Content-Type", u "application/json");
    (u "Authorization", u "Bearer " ++ token) ].

Definition push_data (user_id message : str) : PushBody :=
  {| to := user_id;
     push_messages := [ {| msg_type := u "text"; msg_text := message |} ] |}.

Definition send_line_message
    (user_id : option str) (message : str) (token : option str) : M bool :=
  emit (Enter_send_line_message user_id message token) ;;;
  if negb (truthy user_id) || negb (truthy token) then ret false
  else
    let headers := push_headers (the token) in
    let data := push_data (the user_id) message in
    try_except
      (response <- external (Do_requests_post push_url headers data)
                            (requests_post w push_url headers data) ;;
       raise_for_status response ;;;
       ret true)
      is_RequestException
      (fun _ => ret false).

(** *** [main] *)

Definition no_news_message : str := u "今朝のニュースを取得できませんでした。".

Definition scrape_failed_notice : str :=
  u "[エラー] 本文取得失敗。URLをご確認ください。" ++ [LF].

Definition block_header (i : Z) (title : str) : str :=
  u "📰 **記事 " ++ str_of_int (i + 1) ++ u "**：" ++ title ++ [LF].

Definition block_footer (url : str) : str :=
  LF :: u "🔗 記事URL: " ++ url.

Definition separator : str :=
  [LF; LF] ++ u "----------------------------------" ++ [LF; LF].

Definition truncated_marker : str :=
  u "..." ++ [LF] ++ u "(メッセージが長すぎるため途中で省略されました)".

(** The body of the loop over [enumerate(news_list)]; [n] is
    [len(news_list)]. *)
Definition main_loop_body (n : Z) (i : Z) (news : NewsItem)
    (all_summaries : list str) : M (list str) :=
  let title := title news in
  let url := url news in
  article_text <- scrape_article_body url ;;
  let article_summary_block := block_header i title in
  article_summary_block <-
    (if negb (truthy article_text) then
       ret (article_summary_block ++ scrape_failed_notice)
     else
       summary_text_raw <- summarize_and_add_furigana title article_text ;;
       ret (article_summary_block ++ summary_text_raw)) ;;
  let article_summary_block := article_summary_block ++ block_footer url in
  let all_summaries := all_summaries ++ [article_summary_block] in
  (if i <? n - 1 then emit (Do_time_sleep 1) else ret tt) ;;;
  ret all_summaries.

(** The message built from the blocks, before the length check. *)
Definition assemble (n : Z) (all_summaries : list str) : str :=
  let all_summaries_joined := join separator all_summaries in
  u "🌞 今朝の厳選ニュース " ++ str_of_int n ++ u "本 🗞️" ++ [LF]
  ++ u "==================================" ++ [LF; LF]
  ++ all_summaries_joined
  ++ [LF; LF] ++ u "==================================".

(** [if len(final_message) > 4800: final_message = final_message[:4800] + ...] *)
Definition check_length (final_message : str) : str :=
  if len final_message >? 4800
  then slice_to final_message 4800 ++ truncated_marker
  else final_message.

Definition main : M unit :=
  news_list <- get_latest_news_from_rss (YAHOO_RSS_URL w) 3 ;;
  if negb (truthy_list news_list) then
    send_line_message (LINE_USER_ID w) no_news_message
                      (LINE_CHANNEL_ACCESS_TOKEN w) ;;;
    ret tt
  else
    all_summaries <-
      for_enumerate (main_loop_body (len news_list)) 0 news_list [] ;;
    let final_message := assemble (len news_list) all_summaries in
    let final_message := check_length final_message in
    send_line_message (LINE_USER_ID w) final_message
                      (LINE_CHANNEL_ACCESS_TOKEN w) ;;;
    ret tt.

End Program.

(* ================================================================== *)
(** ** Reading a run *)
(* ================================================================== *)

(** The arguments of each call of the Notifier ([send_line_message]). *)
Fixpoint notifier_calls (t : list event)
  : list (option str * str * option str) :=
  match t with
  | [] => []
  | Enter_send_line_message user_id message token :: r =>
      (user_id, message, token) :: notifier_calls r
  | _ :: r => notifier_calls r
  end.

(** Entries into the extractor and requests for a page. *)
Definition is_extraction (ev : event) : bool :=
  match ev with
  | Enter_scrape_article_body _ => true
  | Do_requests_get _ _ => true
  | _ => false
  end.

(** Entries into the summarizer. *)
Definition is_summarizer_call (ev : event) : bool :=
  match ev with
  | Enter_summarize_and_add_furigana _ _ => true
  | _ => false
  end.

(** Requests to the chat model. *)
Definition is_model_call (ev : event) : bool :=
  match ev with
  | Do_chat_completions_create _ => true
  | _ => false
  end.

(** HTTP POST requests. *)
Definition is_post (ev : event) : bool :=
  match ev with
  | Do_requests_post _ _ _ => true
  | _ => false
  end.

(** Pauses between items. *)
Definition is_sleep (ev : event) : bool :=
  match ev with
  | Do_time_sleep _ => true
  | _ => false
  end.

(** What the extractor hands to [main] for an item. *)
Definition extracted (w : World) (news : NewsItem) : option str :=
  match outcome (scrape_article_body w (url news)) with
  | Ok r => r
  | Raise _ => None
  end.

(** What the summarizer hands to [main] for an item. *)
Definition summary (w : World) (news : NewsItem) : str :=
  match outcome (summarize_and_add_furigana w (title news) (extracted w news))
  with
  | Ok s => s
  | Raise _ => []
  end.

(** The block [main] builds for the item at index [i]. *)
Definition item_block (w : World) (i : Z) (news : NewsItem) : str :=
  block_header i (title news)
  ++ (if truthy (extracted w news) then summary w news
      else scrape_failed_notice)
  ++ block_footer (url news).

(** The events of one turn of the loop. *)
Definition item_trace (w : World) (n i : Z) (news : NewsItem) : list event :=
  trace (scrape_article_body w (url news))
  ++ (if truthy (extracted w news)
      then trace (summarize_and_add_furigana w (title news) (extracted w news))
      else [])
  ++ (if i <? n - 1 then [Do_time_sleep 1] else []).

Fixpoint blocks_from (w : World) (i : Z) (l : list NewsItem) : list str :=
  match l with
  | [] => []
  | news :: r => item_block w i news :: blocks_from w (i + 1) r
  end.

Fixpoint trace_from (w : World) (n i : Z) (l : list NewsItem) : list event :=
  match l with
  | [] => []
  | news :: r => item_trace w n i news ++ trace_from w n (i + 1) r
  end.

(** The paragraphs the extractor keeps from a page: those with a class
    of the article body, else those of [div.article_body]. *)
Definition selected_paragraphs (soup : Soup) : list Paragraph :=
  let paragraphs := find_all_p_class soup body_class in
  if negb (truthy_list paragraphs) then
    match find_div_article_body soup with
    | Some div_paragraphs => div_paragraphs
    | None => paragraphs
    end
  else paragraphs.

(** Their non-empty texts, joined by line breaks. *)
Definition joined_paragraphs (soup : Soup) : str :=
  join [LF]
       (map p_get_text
            (filter (fun p => truthy_list (p_get_text p))
                    (selected_paragraphs soup))).

(** The entry has both a title and a link. *)
Definition complete (e : Entry) : bool :=
  match entry_title e, entry_link e with
  | Some _, Some _ => true
  | _, _ => false
  end.

(** The NewsItem made from a feed entry that is complete. *)
Definition item_of (e : Entry) : NewsItem :=
  {| title := the (entry_title e); url := the (entry_link e) |}.

(* ================================================================== *)
(** ** Sample worlds *)
(* ================================================================== *)

Module Sample.

Fixpoint str_eqb (a b : str) : bool :=
  match a, b with
  | [], [] => true
  | c :: a', d :: b' => (c =? d)%N && str_eqb a' b'
  | _, _ => false
  end.

Definition response (code : Z) (body : list N) : Response :=
  {| status_code := code; reason := u "-"; response_url := []; content := body |}.

(** A page whose paragraphs carry a matching class. *)
Definition page_paragraphs (texts : list str) : Soup :=
  {| find_all_p_class := fun _ => map Build_Paragraph texts;
     find_div_article_body := None;
     find_main := None;
     soup_get_text := u "whole page" |}.

(** A page with no paragraph of the article and a [<main>] element. *)
Definition page_main (main_text : str) : Soup :=
  {| find_all_p_class := fun _ => [];
     find_div_article_body := None;
     find_main := Some main_text;
     soup_get_text := u "whole page" |}.

(** A page whose paragraphs stand in [div.article_body]. *)
Definition page_div (texts : list str) : Soup :=
  {| find_all_p_class := fun _ => [];
     find_div_article_body := Some (map Build_Paragraph texts);
     find_main := None;
     soup_get_text := u "whole page" |}.

(** An entry with a title and a link. *)
Definition entry (t l : str) : Entry :=
  {| entry_title := Some t; entry_link := Some l |}.

Definition four_entries : list Entry :=
  [ entry (u "A") (u "http://n/a");
    entry (u "B") (u "http://n/b");
    entry (u "C") (u "http://n/c");
    entry (u "D") (u "http://n/d") ].

(** Three entries of which the second has no title. *)
Definition entries_one_untitled : list Entry :=
  [ entry (u "A") (u "http://n/a");
    {| entry_title := None; entry_link := Some (u "http://n/b") |};
    entry (u "C") (u "http://n/c") ].

(** Article [a] has two paragraphs, [b] answers 500, [c] has only a
    [<main>] region; the model answers one choice; the push succeeds. *)
Definition world (entries : list Entry) (post_status : Z) : World :=
  {| YAHOO_RSS_URL := u "http://n/rss";
     LINE_USER_ID := Some (u "U1");
     LINE_CHANNEL_ACCESS_TOKEN := Some (u "tok");
     feedparser_parse := fun _ => Ok entries;
     requests_get := fun url _ =>
       if str_eqb url (u "http://n/a") then Ok (response 200 [1%N])
       else if str_eqb url (u "http://n/b") then Ok (response 500 [])
       else if str_eqb url (u "http://n/c") then Ok (response 200 [2%N])
       else if str_eqb url (u "http://n/e") then Ok (response 200 [3%N])
       else Raise (RequestException (u "timed out"));
     BeautifulSoup := fun body =>
       match body with
       | [1%N] => Ok (page_paragraphs [u "First."; []; u "Second."])
       | [2%N] => Ok (page_main (u "Main text."))
       | [3%N] => Ok (page_paragraphs [[]])
       | _ => Raise (Exception (u "not html"))
       end;
     chat_completions_create := fun _ => Ok [Some (u "  summary ")];
     requests_post := fun _ _ _ => Ok (response post_status []) |}.

Definition world_ok : World := world four_entries 200.

Definition world_empty_feed : World := world [] 200.

Definition world_one_untitled : World := world entries_one_untitled 200.

(** A feed of one entry whose title is 5000 characters long. *)
Definition long_title_entries : list Entry :=
  [ entry (repeat 97%N 5000) (u "http://n/b") ].

Definition world_long_title : World := world long_title_entries 200.

(** A feed of one entry whose page yields no text. *)
Definition world_empty_page : World :=
  world [ entry (u "E") (u "http://n/e") ] 200.

(** The push endpoint answers 304. *)
Definition world_post_304 : World := world four_entries 304.

(** The page of the only article has no paragraphs and a [<main>]
    region of 3001 characters. *)
Definition long_main_text : str := repeat 120%N 3001.

Definition world_long_main : World :=
  {| YAHOO_RSS_URL := u "http://n/rss";
     LINE_USER_ID := Some (u "U1");
     LINE_CHANNEL_ACCESS_TOKEN := Some (u "tok");
     feedparser_parse :=
       fun _ => Ok [ entry (u "L") (u "http://n/l") ];
     requests_get := fun _ _ => Ok (response 200 []);
     BeautifulSoup := fun _ => Ok (page_main long_main_text);
     chat_completions_create := fun _ => Ok [Some (u "summary")];
     requests_post := fun _ _ _ => Ok (response 200 []) |}.

(** Every page has two paragraphs of 2000 characters around an empty
    one. *)
Definition long_paragraphs : Soup :=
  page_paragraphs [repeat 120%N 2000; []; repeat 121%N 2000].

Definition world_long_paragraphs : World :=
  {| YAHOO_RSS_URL := u "http://n/rss";
     LINE_USER_ID := Some (u "U1");
     LINE_CHANNEL_ACCESS_TOKEN := Some (u "tok");
     feedparser_parse :=
       fun _ => Ok [ entry (u "P") (u "http://n/p") ];
     requests_get := fun _ _ => Ok (response 200 []);
     BeautifulSoup := fun _ => Ok long_paragraphs;
     chat_completions_create := fun _ => Ok [Some (u "summary")];
     requests_post := fun _ _ _ => Ok (response 200 []) |}.

End Sample.

(* ================================================================== *)
(** ** More readings of a run *)
(* ================================================================== *)

(** The urls the extractor was entered with, in order. *)
Fixpoint scraped_urls (t : list event) : list str :=
  match t with
  | [] => []
  | Enter_scrape_article_body url :: r => url :: scraped_urls r
  | _ :: r => scraped_urls r
  end.

(** The page requests made, each with its timeout, in order. *)
Fixpoint page_requests (t : list event) : list (str * Z) :=
  match t with
  | [] => []
  | Do_requests_get url timeout :: r => (url, timeout) :: page_requests r
  | _ :: r => page_requests r
  end.

(** The requests sent to the chat model, in order. *)
Fixpoint model_requests (t : list event) : list ChatRequest :=
  match t with
  | [] => []
  | Do_chat_completions_create req :: r => req :: model_requests r
  | _ :: r => model_requests r
  end.

(** The feed urls parsed, in order. *)
Fixpoint feed_requests (t : list event) : list str :=
  match t with
  | [] => []
  | Do_feedparser_parse rss_url :: r => rss_url :: feed_requests r
  | _ :: r => feed_requests r
  end.

(** The first line of the message of a run over [n] items. *)
Definition banner (n : Z) : str :=
  u "🌞 今朝の厳選ニュース " ++ str_of_int n ++ u "本 🗞️" ++ [LF].

(** [s] has no white space at either end. *)
Definition stripped (s : str) : Prop :=
  (forall c r, s = c :: r -> isspace c = false)
  /\ (forall r c, s = r ++ [c] -> isspace c = false).

(** Every code point of [s] is white space. *)
Definition all_space (s : str) : Prop := Forall (fun c => isspace c = true) s.

(* ================================================================== *)
(** ** Start-up of the script *)
(* ================================================================== *)

(** [os.environ], read with [os.environ.get]. *)
Definition Environ := str -> option str.

Definition DEFAULT_RSS_URL : str :=
  u "https://news.yahoo.co.jp/rss/topics/top-picks.xml".

(** [os.environ.get(key, default)] *)
Definition environ_get_default (environ : Environ) (key default : str) : str :=
  match environ key with
  | Some value => value
  | None => default
  end.

(** The module-level configuration: the three LINE and feed settings
    read from the environment, over the external answers of [outside]. *)
Definition configure (environ : Environ) (outside : World) : World :=
  {| YAHOO_RSS_URL :=
       environ_get_default environ (u "YAHOO_RSS_URL") DEFAULT_RSS_URL;
     LINE_USER_ID := environ (u "LINE_USER_ID");
     LINE_CHANNEL_ACCESS_TOKEN := environ (u "LINE_CHANNEL_ACCESS_TOKEN");
     feedparser_parse := feedparser_parse outside;
     requests_get := requests_get outside;
     BeautifulSoup := BeautifulSoup outside;
     chat_completions_create := chat_completions_create outside;
     requests_post := requests_post outside |}.

(** How the script ends: [exit()] while the module is loaded, or a run
    of [main]. *)
Inductive Run :=
| Exited
| Ran (m : M unit).

(** The script run as a program: the client is built inside a [try]
    whose handler calls [exit()]; then [main()] is called.  [OpenAI]
    answers the construction of the client from the key. *)
Definition script
    (environ : Environ) (OpenAI : str -> Result unit) (outside : World) : Run :=
  let OPENAI_API_KEY := environ (u "OPENAI_API_KEY") in
  match
    (if truthy OPENAI_API_KEY then OpenAI (the OPENAI_API_KEY)
     else Raise (Exception (u "OPENAI_API_KEYが設定されていません。")))
  with
  | Raise _ => Exited
  | Ok _ => Ran (main (configure environ outside))
  end.

Module SampleEnv.

(** An environment given as a list of bindings. *)
Fixpoint lookup (bindings : list (str * str)) (key : str) : option str :=
  match bindings with
  | [] => None
  | (k, v) :: r => if Sample.str_eqb k key then Some v else lookup r key
  end.

(** All four variables are set. *)
Definition full : Environ :=
  lookup [ (u "OPENAI_API_KEY", u "sk-1");
           (u "LINE_CHANNEL_ACCESS_TOKEN", u "tok");
           (u "LINE_USER_ID", u "U1");
           (u "YAHOO_RSS_URL", u "http://n/other") ].

(** Only the API key is set. *)
Definition key_only : Environ := lookup [ (u "OPENAI_API_KEY", u "sk-1") ].

(** The API key is missing. *)
Definition no_key : Environ :=
  lookup [ (u "LINE_CHANNEL_ACCESS_TOKEN", u "tok"); (u "LINE_USER_ID", u "U1") ].

Definition OpenAI_ok : str -> Result unit := fun _ => Ok tt.

(** Every page has one empty paragraph of the article and a [<main>]
    region with text. *)
Definition blank_paragraph_page : Soup :=
  {| find_all_p_class := fun _ => [ {| p_get_text := [] |} ];
     find_div_article_body := None;
     find_main := Some (u "Main text.");
     soup_get_text := u "whole page" |}.

Definition world_blank_paragraph : World :=
  {| YAHOO_RSS_URL := YAHOO_RSS_URL Sample.world_ok;
     LINE_USER_ID := LINE_USER_ID Sample.world_ok;
     LINE_CHANNEL_ACCESS_TOKEN := LINE_CHANNEL_ACCESS_TOKEN Sample.world_ok;
     feedparser_parse := feedparser_parse Sample.world_ok;
     requests_get := fun _ _ => Ok (Sample.response 200 []);
     BeautifulSoup := fun _ => Ok blank_paragraph_page;
     chat_completions_create := chat_completions_create Sample.world_ok;
     requests_post := requests_post Sample.world_ok |}.

(** The model raises on every request. *)
Definition world_model_down : World :=
  {| YAHOO_RSS_URL := YAHOO_RSS_URL Sample.world_ok;
     LINE_USER_ID := LINE_USER_ID Sample.world_ok;
     LINE_CHANNEL_ACCESS_TOKEN := LINE_CHANNEL_ACCESS_TOKEN Sample.world_ok;
     feedparser_parse := feedparser_parse Sample.world_ok;
     requests_get := requests_get Sample.world_ok;
     BeautifulSoup := BeautifulSoup Sample.world_ok;
     chat_completions_create := fun _ => Raise (Exception (u "rate limit"));
     requests_post := requests_post Sample.world_ok |}.

(** The push raises an exception that is no [RequestException]. *)
Definition world_post_crash : World :=
  {| YAHOO_RSS_URL := YAHOO_RSS_URL Sample.world_ok;
     LINE_USER_ID := LINE_USER_ID Sample.world_ok;
     LINE_CHANNEL_ACCESS_TOKEN := LINE_CHANNEL_ACCESS_TOKEN Sample.world_ok;
     feedparser_parse := feedparser_parse Sample.world_ok;
     requests_get := requests_get Sample.world_ok;
     BeautifulSoup := BeautifulSoup Sample.world_ok;
     chat_completions_create := chat_completions_create Sample.world_ok;
     requests_post := fun _ _ _ => Raise (Exception (u "bad header")) |}.

End SampleEnv.

(* ================================================================== *)
(** ** The model on small inputs *)
(* ================================================================== *)

Example u_emoji : u "本 🗞️" = [26412; 32; 128478; 65039]%N.
Proof. reflexivity. Qed.

Example str_of_int_ex : str_of_int 3 = u "3" /\ str_of_int 404 = u "404".
Proof. split; reflexivity. Qed.

Example slice_to_ex :
  slice_to [1; 2; 3; 4] 3 = [1; 2; 3]
  /\ slice_to [1; 2; 3; 4] (-1) = [1; 2; 3]
  /\ slice_to [1; 2] 3 = [1; 2].
Proof. repeat split; reflexivity. Qed.

Example strip_ex : strip (LF :: u "  a b " ++ [LF]) = u "a b".
Proof. reflexivity. Qed.

Example join_ex :
  join [LF] [u "a"; u "b"; u "c"] = u "a" ++ [LF] ++ u "b" ++ [LF] ++ u "c"
  /\ join [LF] [] = [].
Proof. split; reflexivity. Qed.

Example body_class_ex :
  body_class (Some (u "sc-abc123")) = true
  /\ body_class (Some (u "x article_body")) = true
  /\ body_class (Some (u "lead")) = false
  /\ body_class None = false.
Proof. repeat split; reflexivity. Qed.

Example make_prompt_length : len (make_prompt (u "A") (u "T")) = 480.
Proof. reflexivity. Qed.

(** A run over three articles: the second page answers 500. *)
Example world_ok_run :
  let t := trace (main Sample.world_ok) in
  outcome (main Sample.world_ok) = Ok tt
  /\ length (filter is_extraction t) = 6%nat
  /\ length (filter is_summarizer_call t) = 2%nat
  /\ length (filter is_model_call t) = 2%nat
  /\ length (filter is_post t) = 1%nat
  /\ length (notifier_calls t) = 1%nat
  /\ blocks_from Sample.world_ok 0
       (map item_of (firstn 3 Sample.four_entries))
     = [ block_header 0 (u "A") ++ u "summary" ++ block_footer (u "http://n/a");
         block_header 1 (u "B") ++ scrape_failed_notice
           ++ block_footer (u "http://n/b");
         block_header 2 (u "C") ++ u "summary" ++ block_footer (u "http://n/c") ].
Proof. cbv zeta. repeat split; vm_compute; reflexivity. Qed.

(* ================================================================== *)
(** ** Facts about strings *)
(* ================================================================== *)

Arguments u : simpl never.
Arguments str_of_int : simpl never.

Lemma len_app {A} (a b : list A) : len (a ++ b) = len a + len b.
Proof. unfold len. rewrite length_app. lia. Qed.

Lemma len_nonneg {A} (a : list A) : 0 <= len a.
Proof. unfold len. lia. Qed.

Lemma len_nil_iff {A} (a : list A) : len a = 0 <-> a = [].
Proof.
  unfold len. destruct a; simpl; split; intro H; try reflexivity;
    try discriminate; lia.
Qed.

Lemma slice_to_nonneg {A} (l : list A) (n : Z) :
  0 <= n -> slice_to l n = firstn (Z.to_nat n) l.
Proof.
  intro Hn. unfold slice_to.
  destruct (Z.ltb_spec n 0) as [Hlt | _]; [lia | reflexivity].
Qed.

Lemma len_slice_to {A} (l : list A) (n : Z) :
  0 <= n -> len (slice_to l n) = Z.min n (len l).
Proof.
  intro Hn. rewrite slice_to_nonneg by assumption.
  unfold len. rewrite length_firstn. lia.
Qed.

Lemma slice_to_all {A} (l : list A) (n : Z) :
  len l <= n -> slice_to l n = l.
Proof.
  intro Hn. pose proof (len_nonneg l) as H0.
  rewrite slice_to_nonneg by lia.
  apply firstn_all2. unfold len in Hn. lia.
Qed.

Lemma contains_refl (s : str) : contains s s.
Proof. exists [], []. now rewrite app_nil_r. Qed.

Lemma contains_app_l (a b x : str) : contains a x -> contains (a ++ b) x.
Proof.
  intros (p & q & ->). exists p, (q ++ b). now rewrite <- !app_assoc.
Qed.

Lemma contains_app_r (a b x : str) : contains b x -> contains (a ++ b) x.
Proof.
  intros (p & q & ->). exists (a ++ p), q. now rewrite <- !app_assoc.
Qed.

Lemma contains_cons (c : char) (s x : str) :
  contains s x -> contains (c :: s) x.
Proof. intro H. now apply (contains_app_r [c]). Qed.

Lemma startswith_spec (p s : str) :
  startswith s p = true <-> exists post, s = p ++ post.
Proof.
  revert s. induction p as [| c p IH]; intro s; simpl.
  - split; [intros _; now exists s | reflexivity].
  - destruct s as [| d s]; simpl.
    + split; [discriminate | intros (post & H); discriminate].
    + rewrite andb_true_iff, N.eqb_eq, IH. split.
      * intros (-> & post & ->). now exists post.
      * intros (post & H). injection H as -> ->. split; [reflexivity |].
        now exists post.
Qed.

(** [x in s] holds exactly when [x] occurs in [s]. *)
Lemma str_in_spec (x s : str) : str_in x s = true <-> contains s x.
Proof.
  induction s as [| d s IH].
  - simpl. rewrite orb_false_r, startswith_spec. split.
    + intros (post & H). exists [], post. exact H.
    + intros (pre & post & H). destruct pre as [| c pre]; [| discriminate].
      now exists post.
  - cbn [str_in]. rewrite orb_true_iff, IH, startswith_spec. split.
    + intros [(post & ->) | H].
      * now exists [], post.
      * now apply contains_cons.
    + intros (pre & post & H). destruct pre as [| c pre].
      * left. now exists post.
      * right. injection H as -> ->. now exists pre, post.
Qed.

Lemma len_truncated_marker : len truncated_marker = 28.
Proof. reflexivity. Qed.

Lemma len_no_news_message : len no_news_message = 19.
Proof. reflexivity. Qed.

Lemma truthy_false_iff (s : option str) :
  truthy s = false <-> s = None \/ s = Some [].
Proof.
  destruct s as [[| c r] |]; simpl; split; intro H; auto; try discriminate.
  - destruct H as [H | H]; discriminate.
Qed.

(** The length check of [main]: what it returns and how long that is. *)
Lemma check_length_long (m : str) :
  4800 < len m ->
  check_length m = firstn (Z.to_nat 4800) m ++ truncated_marker
  /\ len (check_length m) = 4828.
Proof.
  intro H. unfold check_length.
  destruct (Z.gtb_spec (len m) 4800) as [_ | Hle]; [| lia].
  rewrite slice_to_nonneg by lia. split.
  - reflexivity.
  - rewrite len_app, len_truncated_marker.
    unfold len in *. rewrite length_firstn. lia.
Qed.

Lemma check_length_short (m : str) :
  len m <= 4800 -> check_length m = m.
Proof.
  intro H. unfold check_length.
  destruct (Z.gtb_spec (len m) 4800) as [Hgt | _]; [lia | reflexivity].
Qed.

(* ================================================================== *)
(** ** How each function runs *)
(* ================================================================== *)

Lemma bind_ok {A B} (a : A) (t : list event) (k : A -> M B) :
  bind (Ok a, t) k = (outcome (k a), t ++ trace (k a)).
Proof. unfold bind, outcome, trace. now destruct (k a). Qed.

Lemma bind_raise {A B} (e : exn) (t : list event) (k : A -> M B) :
  bind (Raise e, t) k = (Raise e, t).
Proof. reflexivity. Qed.

Lemma M_eta {A} (m : M A) : m = (outcome m, trace m).
Proof. now destruct m. Qed.

Lemma trace_then_ret {A B} (m : M A) (b : B) :
  trace (bind m (fun _ => ret b)) = trace m.
Proof.
  destruct m as [[a | e] t]; unfold bind, ret, trace; simpl;
    [apply app_nil_r | reflexivity].
Qed.

Ltac run_step :=
  unfold bind, ret, raise, emit, external, try_except, index0, strip_method,
    raise_for_status, outcome, trace;
  cbv beta iota.

Section Runs.

Variable w : World.

(** The loop that fills [news_list]: it maps the entries to items, in
    order, when each has a title and a link, and raises at the first
    entry that lacks one. *)
Lemma for_each_append_entry_complete
    (entries : list Entry) (acc : list NewsItem) :
  forallb complete entries = true ->
  for_each append_entry entries acc = (Ok (acc ++ map item_of entries), []).
Proof.
  revert acc. induction entries as [| e r IH]; intros acc Hc.
  - cbn [for_each map]. unfold ret. now rewrite app_nil_r.
  - cbn [forallb] in Hc. apply andb_true_iff in Hc. destruct Hc as (He & Hr).
    cbn [for_each map]. unfold append_entry, item_of, complete in *.
    destruct (entry_title e) as [t |]; [| discriminate He].
    destruct (entry_link e) as [l |]; [| discriminate He].
    cbv [attribute ret bind the]. rewrite (IH _ Hr). cbn [app].
    now rewrite <- app_assoc.
Qed.

Lemma for_each_append_entry_incomplete
    (entries : list Entry) (acc : list NewsItem) :
  forallb complete entries = false ->
  exists e, for_each append_entry entries acc = (Raise e, []).
Proof.
  revert acc. induction entries as [| e r IH]; intros acc Hc;
    [discriminate Hc |].
  cbn [forallb] in Hc. cbn [for_each].
  unfold append_entry at 1. unfold complete in Hc.
  destruct (entry_title e) as [t |]; [| eexists; reflexivity].
  destruct (entry_link e) as [l |]; [| eexists; reflexivity].
  cbn [andb] in Hc. destruct (IH (acc ++ [ {| title := t; url := l |} ]) Hc)
    as (x & Hx).
  exists x. cbv [attribute ret bind]. rewrite Hx. reflexivity.
Qed.

(** What the feed reader returns for a feed that parsed: the items of
    the entries taken when all of them are complete, and else the empty
    list. *)
Lemma get_latest_news_from_rss_ok
    (rss_url : str) (count : Z) (entries : list Entry) :
  feedparser_parse w rss_url = Ok entries ->
  get_latest_news_from_rss w rss_url count
  = (Ok (if forallb complete (slice_to entries count)
         then map item_of (slice_to entries count)
         else []),
     [Enter_get_latest_news_from_rss rss_url count;
      Do_feedparser_parse rss_url]).
Proof.
  intro H. unfold get_latest_news_from_rss.
  unfold emit, external. rewrite H.
  destruct entries as [| e r].
  - assert (Hs : slice_to (@nil Entry) count = [])
      by (unfold slice_to; destruct (count <? 0); apply firstn_nil).
    rewrite Hs. reflexivity.
  - cbn [truthy_list negb].
    destruct (forallb complete (slice_to (e :: r) count)) eqn:Hc.
    + unfold bind at 2. rewrite (for_each_append_entry_complete _ [] Hc).
      reflexivity.
    + destruct (for_each_append_entry_incomplete _ [] Hc) as (x & Hx).
      unfold bind at 2. rewrite Hx. reflexivity.
Qed.

(** The feed reader never raises and parses the feed once. *)
Lemma get_latest_news_from_rss_run (rss_url : str) (count : Z) :
  exists news_list,
    get_latest_news_from_rss w rss_url count
    = (Ok news_list,
       [Enter_get_latest_news_from_rss rss_url count;
        Do_feedparser_parse rss_url]).
Proof.
  destruct (feedparser_parse w rss_url) as [entries | e] eqn:H.
  - eexists. exact (get_latest_news_from_rss_ok rss_url count H).
  - unfold get_latest_news_from_rss. run_step. rewrite H.
    eexists. reflexivity.
Qed.

(** The extractor never raises; it requests the page once. *)
Lemma scrape_article_body_run (url : str) :
  exists article_text,
    scrape_article_body w url
    = (Ok article_text,
       [Enter_scrape_article_body url; Do_requests_get url 10]).
Proof.
  unfold scrape_article_body. run_step.
  destruct (requests_get w url 10) as [response | e];
    [| simpl; eexists; reflexivity].
  destruct ((400 <=? status_code response) && (status_code response <? 500));
    [simpl; eexists; reflexivity |].
  destruct ((500 <=? status_code response) && (status_code response <? 600));
    [simpl; eexists; reflexivity |].
  destruct (BeautifulSoup w (content response)) as [soup | e];
    [| simpl; eexists; reflexivity].
  cbv zeta.
  destruct (negb (truthy_list _)); simpl; eexists; reflexivity.
Qed.

Lemma scrape_article_body_extracted (news : NewsItem) :
  scrape_article_body w (url news)
  = (Ok (extracted w news),
     [Enter_scrape_article_body (url news); Do_requests_get (url news) 10]).
Proof.
  unfold extracted.
  destruct (scrape_article_body_run (url news)) as (r & ->). reflexivity.
Qed.

(** The summarizer never raises; it calls the model only for a text
    that is neither [None] nor empty, and then once. *)
Lemma summarize_and_add_furigana_run (title : str) (article_text : option str) :
  exists s,
    summarize_and_add_furigana w title article_text
    = (Ok s,
       Enter_summarize_and_add_furigana title article_text
       :: (if truthy article_text
           then [Do_chat_completions_create
                   (chat_request title (the article_text))]
           else [])).
Proof.
  unfold summarize_and_add_furigana. run_step.
  destruct (truthy article_text); cbn [negb]; cbv beta iota zeta.
  - destruct (chat_completions_create w _) as [[| [c |] r] | e];
      simpl; eexists; reflexivity.
  - simpl. eexists; reflexivity.
Qed.

(** The notifier posts at most once. *)
Lemma send_line_message_run
    (user_id : option str) (message : str) (token : option str) :
  exists r,
    send_line_message w user_id message token
    = (r,
       Enter_send_line_message user_id message token
       :: (if truthy user_id && truthy token
           then [Do_requests_post push_url (push_headers (the token))
                                  (push_data (the user_id) message)]
           else [])).
Proof.
  unfold send_line_message. run_step.
  destruct (truthy user_id), (truthy token); cbn [negb orb andb];
    cbv beta iota zeta; try (simpl; eexists; reflexivity).
  destruct (requests_post w _ _ _) as [response | e].
  - destruct ((400 <=? status_code response) && (status_code response <? 500));
      [simpl; eexists; reflexivity |].
    destruct ((500 <=? status_code response) && (status_code response <? 600));
      simpl; eexists; reflexivity.
  - destruct e; simpl; eexists; reflexivity.
Qed.

End Runs.

Section Loop.

Variable w : World.

(** One turn of the loop never raises: it appends one block. *)
Lemma main_loop_body_run (n i : Z) (news : NewsItem) (acc : list str) :
  main_loop_body w n i news acc
  = (Ok (acc ++ [item_block w i news]), item_trace w n i news).
Proof.
  unfold main_loop_body, item_block, item_trace, summary. cbv zeta.
  rewrite scrape_article_body_extracted.
  destruct (summarize_and_add_furigana_run w (title news) (extracted w news))
    as (s & Hs).
  rewrite bind_ok.
  destruct (truthy (extracted w news)); cbn [negb]; cbv beta iota.
  - rewrite Hs. run_step. simpl.
    destruct (i <? n - 1); simpl; rewrite <- ?app_assoc; reflexivity.
  - run_step. simpl.
    destruct (i <? n - 1); simpl; rewrite <- ?app_assoc; reflexivity.
Qed.

(** The loop never raises: it appends one block per item, in order. *)
Lemma for_enumerate_run (n i : Z) (l : list NewsItem) (acc : list str) :
  for_enumerate (main_loop_body w n) i l acc
  = (Ok (acc ++ blocks_from w i l), trace_from w n i l).
Proof.
  revert i acc. induction l as [| news r IH]; intros i acc; simpl.
  - unfold ret. now rewrite app_nil_r.
  - rewrite main_loop_body_run, bind_ok, IH. unfold outcome, trace. simpl.
    now rewrite <- app_assoc.
Qed.

Lemma length_blocks_from (i : Z) (l : list NewsItem) :
  length (blocks_from w i l) = length l.
Proof.
  revert i. induction l as [| news r IH]; intro i; simpl; [reflexivity |].
  now rewrite IH.
Qed.

Lemma nth_error_blocks_from (i : Z) (l : list NewsItem) (j : nat) :
  nth_error (blocks_from w i l) j
  = option_map (item_block w (i + Z.of_nat j)) (nth_error l j).
Proof.
  revert i j. induction l as [| news r IH]; intros i j.
  - now destruct j.
  - destruct j as [| j].
    + simpl. now rewrite Z.add_0_r.
    + cbn [blocks_from nth_error]. rewrite IH.
      replace (i + 1 + Z.of_nat j) with (i + Z.of_nat (S j)) by lia.
      reflexivity.
Qed.

(** The run of [main] when the feed reader returns no item. *)
Lemma main_run_empty :
  outcome (get_latest_news_from_rss w (YAHOO_RSS_URL w) 3) = Ok [] ->
  trace (main w)
  = trace (get_latest_news_from_rss w (YAHOO_RSS_URL w) 3)
    ++ trace (send_line_message w (LINE_USER_ID w) no_news_message
                                (LINE_CHANNEL_ACCESS_TOKEN w)).
Proof.
  intro H. unfold main.
  rewrite (M_eta (get_latest_news_from_rss w (YAHOO_RSS_URL w) 3)), H.
  rewrite bind_ok. cbn [truthy_list negb]. cbv beta iota.
  unfold trace at 1. cbn [snd]. f_equal.
  apply trace_then_ret.
Qed.

(** The run of [main] when the feed reader returns items. *)
Lemma main_run_items (news_list : list NewsItem) :
  outcome (get_latest_news_from_rss w (YAHOO_RSS_URL w) 3) = Ok news_list ->
  news_list <> [] ->
  trace (main w)
  = trace (get_latest_news_from_rss w (YAHOO_RSS_URL w) 3)
    ++ trace_from w (len news_list) 0 news_list
    ++ trace (send_line_message w (LINE_USER_ID w)
                (check_length
                   (assemble (len news_list) (blocks_from w 0 news_list)))
                (LINE_CHANNEL_ACCESS_TOKEN w)).
Proof.
  intros H Hne. unfold main.
  rewrite (M_eta (get_latest_news_from_rss w (YAHOO_RSS_URL w) 3)), H.
  rewrite bind_ok.
  destruct news_list as [| news r]; [congruence |].
  cbn [truthy_list negb]. cbv beta iota.
  rewrite for_enumerate_run, bind_ok. cbv zeta.
  unfold trace at 1. cbn [snd]. f_equal.
  unfold trace at 1. cbn [snd]. f_equal.
  rewrite app_nil_l. apply trace_then_ret.
Qed.

End Loop.

(* ================================================================== *)
(** ** What a run of [main] contains *)
(* ================================================================== *)

Lemma notifier_calls_app (a b : list event) :
  notifier_calls (a ++ b) = notifier_calls a ++ notifier_calls b.
Proof.
  induction a as [| ev a IH]; [reflexivity |].
  destruct ev; simpl; rewrite IH; reflexivity.
Qed.

Section Traces.

Variable w : World.

Lemma trace_get_latest_news_from_rss (rss_url : str) (count : Z) :
  trace (get_latest_news_from_rss w rss_url count)
  = [Enter_get_latest_news_from_rss rss_url count;
     Do_feedparser_parse rss_url].
Proof.
  destruct (get_latest_news_from_rss_run w rss_url count) as (l & ->).
  reflexivity.
Qed.

Lemma trace_send_line_message
    (user_id : option str) (message : str) (token : option str) :
  trace (send_line_message w user_id message token)
  = Enter_send_line_message user_id message token
    :: (if truthy user_id && truthy token
        then [Do_requests_post push_url (push_headers (the token))
                               (push_data (the user_id) message)]
        else []).
Proof.
  destruct (send_line_message_run w user_id message token) as (r & ->).
  reflexivity.
Qed.

Lemma trace_summarize_and_add_furigana
    (title : str) (article_text : option str) :
  trace (summarize_and_add_furigana w title article_text)
  = Enter_summarize_and_add_furigana title article_text
    :: (if truthy article_text
        then [Do_chat_completions_create
                (chat_request title (the article_text))]
        else []).
Proof.
  destruct (summarize_and_add_furigana_run w title article_text) as (s & ->).
  reflexivity.
Qed.

(** The events of one turn, written out. *)
Lemma item_trace_eq (n i : Z) (news : NewsItem) :
  item_trace w n i news
  = [Enter_scrape_article_body (url news); Do_requests_get (url news) 10]
    ++ (if truthy (extracted w news)
        then [Enter_summarize_and_add_furigana (title news) (extracted w news);
              Do_chat_completions_create
                (chat_request (title news) (the (extracted w news)))]
        else [])
    ++ (if i <? n - 1 then [Do_time_sleep 1] else []).
Proof.
  unfold item_trace.
  rewrite scrape_article_body_extracted, trace_summarize_and_add_furigana.
  unfold trace at 1. cbn [snd].
  destruct (truthy (extracted w news)); reflexivity.
Qed.

Lemma notifier_calls_item_trace (n i : Z) (news : NewsItem) :
  notifier_calls (item_trace w n i news) = [].
Proof.
  rewrite item_trace_eq.
  destruct (truthy (extracted w news)), (i <? n - 1); reflexivity.
Qed.

Lemma notifier_calls_trace_from (n i : Z) (l : list NewsItem) :
  notifier_calls (trace_from w n i l) = [].
Proof.
  revert i. induction l as [| news r IH]; intro i; simpl; [reflexivity |].
  now rewrite notifier_calls_app, notifier_calls_item_trace, IH.
Qed.

Lemma notifier_calls_send
    (user_id : option str) (message : str) (token : option str) :
  notifier_calls (trace (send_line_message w user_id message token))
  = [(user_id, message, token)].
Proof.
  rewrite trace_send_line_message.
  destruct (truthy user_id && truthy token); reflexivity.
Qed.

(** A run over a non-empty [news_list] calls the notifier once, with
    the assembled message after the length check. *)
Lemma notifier_calls_main_items (news_list : list NewsItem) :
  outcome (get_latest_news_from_rss w (YAHOO_RSS_URL w) 3) = Ok news_list ->
  news_list <> [] ->
  notifier_calls (trace (main w))
  = [(LINE_USER_ID w,
      check_length (assemble (len news_list) (blocks_from w 0 news_list)),
      LINE_CHANNEL_ACCESS_TOKEN w)].
Proof.
  intros H Hne. rewrite (main_run_items w H Hne).
  rewrite !notifier_calls_app, trace_get_latest_news_from_rss.
  rewrite notifier_calls_trace_from, notifier_calls_send. reflexivity.
Qed.

End Traces.

(* ================================================================== *)
(** ** The claims of the specification *)
(* ================================================================== *)

(** C4. When the feed reader returns an empty list, [main] calls the
    notifier exactly once, with the fixed fallback text, and the run
    contains no extraction, no call of the summarizer and no request to
    the model; at most one POST is made. *)
Theorem empty_feed_sends_one_fallback (w : World) :
  outcome (get_latest_news_from_rss w (YAHOO_RSS_URL w) 3) = Ok [] ->
  notifier_calls (trace (main w))
  = [(LINE_USER_ID w, no_news_message, LINE_CHANNEL_ACCESS_TOKEN w)]
  /\ filter is_extraction (trace (main w)) = []
  /\ filter is_summarizer_call (trace (main w)) = []
  /\ filter is_model_call (trace (main w)) = []
  /\ (length (filter is_post (trace (main w))) <= 1)%nat.
Proof.
  intro H. rewrite (main_run_empty w H).
  rewrite trace_get_latest_news_from_rss, trace_send_line_message.
  destruct (truthy (LINE_USER_ID w) && truthy (LINE_CHANNEL_ACCESS_TOKEN w));
    simpl; repeat split; lia.
Qed.

Lemma empty_feed_sends_one_fallback_witness :
  outcome (get_latest_news_from_rss Sample.world_empty_feed
             (YAHOO_RSS_URL Sample.world_empty_feed) 3) = Ok []
  /\ notifier_calls (trace (main Sample.world_empty_feed))
     = [(Some (u "U1"), no_news_message, Some (u "tok"))]
  /\ filter is_extraction (trace (main Sample.world_empty_feed)) = []
  /\ filter is_summarizer_call (trace (main Sample.world_empty_feed)) = []
  /\ filter is_model_call (trace (main Sample.world_empty_feed)) = []
  /\ (length (filter is_post (trace (main Sample.world_empty_feed))) <= 1)%nat.
Proof.
  split; [reflexivity |].
  apply (empty_feed_sends_one_fallback Sample.world_empty_feed).
  reflexivity.
Defined.

(** C1, as the code has it.  In every run that assembles a digest the
    notifier is called once, and its message is at most 4828 characters
    long: a digest of at most 4800 characters is passed unchanged, and a
    longer one is cut to its first 4800 characters and followed by the
    28 characters of the truncation marker, 4828 characters in all.  The
    digest is the one assembled from the blocks of the loop. *)
Theorem digest_message_at_most_4828 (w : World) (news_list : list NewsItem) :
  outcome (get_latest_news_from_rss w (YAHOO_RSS_URL w) 3) = Ok news_list ->
  news_list <> [] ->
  exists all_summaries message,
    outcome (for_enumerate (main_loop_body w (len news_list)) 0 news_list [])
    = Ok all_summaries
    /\ notifier_calls (trace (main w))
       = [(LINE_USER_ID w, message, LINE_CHANNEL_ACCESS_TOKEN w)]
    /\ len truncated_marker = 28
    /\ len message <= 4828
    /\ let digest := assemble (len news_list) all_summaries in
       (len digest <= 4800 -> message = digest)
       /\ (4800 < len digest ->
           message = firstn (Z.to_nat 4800) digest ++ truncated_marker
           /\ len message = 4828).
Proof.
  intros H Hne.
  exists (blocks_from w 0 news_list),
         (check_length (assemble (len news_list) (blocks_from w 0 news_list))).
  split; [now rewrite for_enumerate_run |].
  split; [exact (notifier_calls_main_items w H Hne) |].
  split; [exact len_truncated_marker |].
  cbv zeta.
  set (digest := assemble (len news_list) (blocks_from w 0 news_list)).
  destruct (Z.le_gt_cases (len digest) 4800) as [Hle | Hgt].
  - rewrite (check_length_short _ Hle).
    split; [lia |]. split; [reflexivity | lia].
  - destruct (check_length_long _ Hgt) as (Heq & Hlen).
    split; [lia |]. split; [lia |]. intros _. split; assumption.
Qed.

Lemma digest_message_at_most_4828_witness :
  let w := Sample.world_ok in
  let news_list := map item_of (firstn 3 Sample.four_entries) in
  exists all_summaries message,
    outcome (for_enumerate (main_loop_body w (len news_list)) 0 news_list [])
    = Ok all_summaries
    /\ notifier_calls (trace (main w))
       = [(LINE_USER_ID w, message, LINE_CHANNEL_ACCESS_TOKEN w)]
    /\ len truncated_marker = 28
    /\ len message <= 4828
    /\ let digest := assemble (len news_list) all_summaries in
       (len digest <= 4800 -> message = digest)
       /\ (4800 < len digest ->
           message = firstn (Z.to_nat 4800) digest ++ truncated_marker
           /\ len message = 4828).
Proof.
  intros w news_list.
  apply (digest_message_at_most_4828 w (news_list := news_list)).
  - vm_compute. reflexivity.
  - discriminate.
Defined.

(** C1 fails as stated: with one article whose title has 5000
    characters the single message passed to the notifier is 4828
    characters long, above 4800. *)
Lemma digest_ceiling_4800_counterexample :
  map (fun call => len (snd (fst call)))
      (notifier_calls (trace (main Sample.world_long_title)))
  = [4828]
  /\ 4800 < 4828.
Proof. split; [vm_compute; reflexivity | lia]. Qed.

(** C3. In every run that assembles a digest the notifier is called
    once; when the digest is longer than 4800 characters the message is
    its first 4800 characters followed by the truncation marker, and
    otherwise the message is the digest unchanged. *)
Theorem long_digest_cut_at_4800 (w : World) (news_list : list NewsItem) :
  outcome (get_latest_news_from_rss w (YAHOO_RSS_URL w) 3) = Ok news_list ->
  news_list <> [] ->
  exists all_summaries message,
    outcome (for_enumerate (main_loop_body w (len news_list)) 0 news_list [])
    = Ok all_summaries
    /\ notifier_calls (trace (main w))
       = [(LINE_USER_ID w, message, LINE_CHANNEL_ACCESS_TOKEN w)]
    /\ let digest := assemble (len news_list) all_summaries in
       (4800 < len digest ->
        message = firstn (Z.to_nat 4800) digest ++ truncated_marker)
       /\ (len digest <= 4800 -> message = digest).
Proof.
  intros H Hne.
  exists (blocks_from w 0 news_list),
         (check_length (assemble (len news_list) (blocks_from w 0 news_list))).
  split; [now rewrite for_enumerate_run |].
  split; [exact (notifier_calls_main_items w H Hne) |].
  cbv zeta. split; intro Hlen.
  - apply check_length_long. exact Hlen.
  - apply check_length_short. exact Hlen.
Qed.

Lemma long_digest_cut_at_4800_witness :
  let w := Sample.world_long_title in
  let news_list := map item_of Sample.long_title_entries in
  exists all_summaries message,
    outcome (for_enumerate (main_loop_body w (len news_list)) 0 news_list [])
    = Ok all_summaries
    /\ notifier_calls (trace (main w))
       = [(LINE_USER_ID w, message, LINE_CHANNEL_ACCESS_TOKEN w)]
    /\ let digest := assemble (len news_list) all_summaries in
       (4800 < len digest ->
        message = firstn (Z.to_nat 4800) digest ++ truncated_marker)
       /\ (len digest <= 4800 -> message = digest).
Proof.
  intros w news_list.
  apply (long_digest_cut_at_4800 w (news_list := news_list)).
  - vm_compute. reflexivity.
  - discriminate.
Defined.

(* ------------------------------------------------------------------ *)
(** *** The blocks of the loop *)

Section Blocks.

Variable w : World.

Lemma item_block_nonempty (i : Z) (news : NewsItem) : item_block w i news <> [].
Proof.
  unfold item_block, block_footer. intro H.
  apply (f_equal (@length char)) in H.
  rewrite !length_app in H. cbn [length] in H. lia.
Qed.

Lemma item_block_contains_title (i : Z) (news : NewsItem) :
  contains (item_block w i news) (title news).
Proof.
  unfold item_block, block_header.
  apply contains_app_l. do 3 apply contains_app_r.
  apply contains_app_l, contains_refl.
Qed.

Lemma item_block_contains_url (i : Z) (news : NewsItem) :
  contains (item_block w i news) (url news).
Proof.
  unfold item_block, block_footer.
  do 2 apply contains_app_r. apply contains_cons, contains_app_r.
  apply contains_refl.
Qed.

(** What the loop does with an extraction result that is [None] or
    empty. *)
Lemma main_loop_body_no_text (n i : Z) (news : NewsItem) (acc : list str) :
  truthy (extracted w news) = false ->
  main_loop_body w n i news acc
  = (Ok (acc ++ [block_header i (title news) ++ scrape_failed_notice
                 ++ block_footer (url news)]),
     [Enter_scrape_article_body (url news); Do_requests_get (url news) 10]
     ++ (if i <? n - 1 then [Do_time_sleep 1] else [])).
Proof.
  intro H. rewrite main_loop_body_run, item_trace_eq.
  unfold item_block. rewrite H. reflexivity.
Qed.

Lemma extracted_of_outcome (news : NewsItem) (r : option str) :
  outcome (scrape_article_body w (url news)) = Ok r -> extracted w news = r.
Proof. intro H. unfold extracted. now rewrite H. Qed.

Lemma no_summarizer_without_text (n i : Z) (news : NewsItem) (acc : list str) :
  truthy (extracted w news) = false ->
  filter is_summarizer_call (trace (main_loop_body w n i news acc)) = []
  /\ filter is_model_call (trace (main_loop_body w n i news acc)) = [].
Proof.
  intro H. rewrite (main_loop_body_no_text n i news acc H).
  unfold trace. cbn [snd]. destruct (i <? n - 1); split; reflexivity.
Qed.

(** In the whole loop every item gets the block it would get alone. *)
Lemma loop_blocks_independent (news_list : list NewsItem) :
  exists all_summaries,
    outcome (for_enumerate (main_loop_body w (len news_list)) 0 news_list [])
    = Ok all_summaries
    /\ length all_summaries = length news_list
    /\ forall j sibling,
         nth_error news_list j = Some sibling ->
         exists block,
           nth_error all_summaries j = Some block
           /\ outcome (main_loop_body w (len news_list) (Z.of_nat j) sibling [])
              = Ok [block].
Proof.
  exists (blocks_from w 0 news_list).
  split; [now rewrite for_enumerate_run |].
  split; [apply length_blocks_from |].
  intros j sibling Hj. exists (item_block w (Z.of_nat j) sibling).
  split.
  - rewrite nth_error_blocks_from, Hj. reflexivity.
  - now rewrite main_loop_body_run.
Qed.

Lemma summarizer_calls_have_text_from
    (n i : Z) (l : list NewsItem) (t : str) (a : option str) :
  In (Enter_summarize_and_add_furigana t a) (trace_from w n i l) ->
  truthy a = true.
Proof.
  revert i. induction l as [| news r IH]; intro i; simpl; [tauto |].
  rewrite in_app_iff. intros [H | H]; [| exact (IH _ H)].
  rewrite item_trace_eq in H.
  destruct (truthy (extracted w news)) eqn:E, (i <? n - 1); simpl in H;
    repeat (destruct H as [H | H]; try discriminate H; try tauto);
    injection H as _ <-; exact E.
Qed.

End Blocks.

(** Every call of the summarizer made by [main] carries a text that is
    neither [None] nor empty. *)
Lemma summarizer_calls_have_text (w : World) (t : str) (a : option str) :
  In (Enter_summarize_and_add_furigana t a) (trace (main w)) ->
  truthy a = true.
Proof.
  destruct (get_latest_news_from_rss_run w (YAHOO_RSS_URL w) 3) as (l & Hrun).
  assert (Hout : outcome (get_latest_news_from_rss w (YAHOO_RSS_URL w) 3) = Ok l)
    by now rewrite Hrun.
  destruct l as [| news r].
  - rewrite (main_run_empty w Hout), trace_get_latest_news_from_rss,
      trace_send_line_message.
    destruct (truthy (LINE_USER_ID w) && truthy (LINE_CHANNEL_ACCESS_TOKEN w));
      simpl; intro H;
      repeat (destruct H as [H | H]; try discriminate H; try tauto).
  - assert (Hne : news :: r <> []) by discriminate.
    rewrite (main_run_items w Hout Hne), trace_get_latest_news_from_rss,
      trace_send_line_message.
    rewrite !in_app_iff. intros [H | [H | H]].
    + simpl in H.
      repeat (destruct H as [H | H]; try discriminate H; try tauto).
    + exact (summarizer_calls_have_text_from w _ _ _ _ _ H).
    + destruct (truthy (LINE_USER_ID w) && truthy (LINE_CHANNEL_ACCESS_TOKEN w));
        simpl in H;
        repeat (destruct H as [H | H]; try discriminate H; try tauto).
Qed.

(** C6. Every turn of the loop returns normally and appends one block;
    the block is not empty and contains the item's title and its url,
    whatever the extractor and the summarizer did.  The same holds of
    every block of the whole loop. *)
Theorem summary_block_names_its_article
    (w : World) (n i : Z) (news : NewsItem) (acc : list str) :
  (exists block,
     outcome (main_loop_body w n i news acc) = Ok (acc ++ [block])
     /\ block <> []
     /\ contains block (title news)
     /\ contains block (url news))
  /\ forall news_list : list NewsItem,
       exists all_summaries,
         outcome (for_enumerate (main_loop_body w (len news_list))
                                0 news_list [])
         = Ok all_summaries
         /\ length all_summaries = length news_list
         /\ forall j item block,
              nth_error news_list j = Some item ->
              nth_error all_summaries j = Some block ->
              block <> []
              /\ contains block (title item)
              /\ contains block (url item).
Proof.
  split.
  - exists (item_block w i news). rewrite main_loop_body_run.
    repeat split.
    + apply item_block_nonempty.
    + apply item_block_contains_title.
    + apply item_block_contains_url.
  - intro news_list. exists (blocks_from w 0 news_list).
    split; [now rewrite for_enumerate_run |].
    split; [apply length_blocks_from |].
    intros j item block Hj Hb.
    rewrite nth_error_blocks_from, Hj in Hb. injection Hb as <-.
    repeat split.
    + apply item_block_nonempty.
    + apply item_block_contains_title.
    + apply item_block_contains_url.
Qed.

(** C5. When the extractor returns [None] for an item, the turn of the
    loop returns normally with a block that contains the failure notice,
    the item's title and its url; the turn contains no call of the
    summarizer and no request to the model.  In a loop over any list
    every item still gets the block it would get on its own. *)
Theorem absent_extraction_gives_failure_block
    (w : World) (n i : Z) (news : NewsItem) (acc : list str) :
  outcome (scrape_article_body w (url news)) = Ok None ->
  (exists block,
     outcome (main_loop_body w n i news acc) = Ok (acc ++ [block])
     /\ contains block scrape_failed_notice
     /\ contains block (title news)
     /\ contains block (url news))
  /\ filter is_summarizer_call (trace (main_loop_body w n i news acc)) = []
  /\ filter is_model_call (trace (main_loop_body w n i news acc)) = []
  /\ forall news_list : list NewsItem,
       exists all_summaries,
         outcome (for_enumerate (main_loop_body w (len news_list))
                                0 news_list [])
         = Ok all_summaries
         /\ length all_summaries = length news_list
         /\ forall j sibling,
              nth_error news_list j = Some sibling ->
              exists block,
                nth_error all_summaries j = Some block
                /\ outcome (main_loop_body w (len news_list) (Z.of_nat j)
                                           sibling [])
                   = Ok [block].
Proof.
  intro H. apply extracted_of_outcome in H.
  assert (Hf : truthy (extracted w news) = false) by now rewrite H.
  split; [| split; [| split]].
  - exists (item_block w i news). rewrite main_loop_body_run.
    split; [reflexivity |]. split; [| split].
    + unfold item_block. rewrite Hf.
      apply contains_app_r, contains_app_l, contains_refl.
    + apply item_block_contains_title.
    + apply item_block_contains_url.
  - apply no_summarizer_without_text, Hf.
  - apply no_summarizer_without_text, Hf.
  - apply loop_blocks_independent.
Qed.

Lemma absent_extraction_gives_failure_block_witness :
  let w := Sample.world_ok in
  let news := {| title := u "B"; url := u "http://n/b" |} in
  outcome (scrape_article_body w (url news)) = Ok None
  /\ (exists block,
        outcome (main_loop_body w 3 1 news []) = Ok ([] ++ [block])
        /\ contains block scrape_failed_notice
        /\ contains block (title news)
        /\ contains block (url news))
  /\ filter is_summarizer_call (trace (main_loop_body w 3 1 news [])) = []
  /\ filter is_model_call (trace (main_loop_body w 3 1 news [])) = [].
Proof.
  intros w news.
  split; [reflexivity |].
  destruct (absent_extraction_gives_failure_block w 3 1 news [])
    as (Hb & Hs & Hm & _); [reflexivity |].
  repeat split; assumption.
Defined.

(** C10. When the extractor returns the empty string for an item, the
    turn of the loop is the one of an absent result: the block is the
    failure block, the summarizer is not called, and the turn equals the
    turn of any world that answers [None] for the same url.  In every
    run of [main] each call of the summarizer carries a text that is
    neither [None] nor empty and goes on to request the model, so its
    branch for a missing text is never taken. *)
Theorem empty_extraction_is_treated_as_absent
    (w : World) (n i : Z) (news : NewsItem) (acc : list str) :
  outcome (scrape_article_body w (url news)) = Ok (Some []) ->
  outcome (main_loop_body w n i news acc)
  = Ok (acc ++ [block_header i (title news) ++ scrape_failed_notice
                ++ block_footer (url news)])
  /\ filter is_summarizer_call (trace (main_loop_body w n i news acc)) = []
  /\ filter is_model_call (trace (main_loop_body w n i news acc)) = []
  /\ (forall w' : World,
        outcome (scrape_article_body w' (url news)) = Ok None ->
        main_loop_body w n i news acc = main_loop_body w' n i news acc)
  /\ (forall (w0 : World) (t : str) (a : option str),
        In (Enter_summarize_and_add_furigana t a) (trace (main w0)) ->
        truthy a = true
        /\ trace (summarize_and_add_furigana w0 t a)
           = [Enter_summarize_and_add_furigana t a;
              Do_chat_completions_create (chat_request t (the a))]).
Proof.
  intro H. apply extracted_of_outcome in H.
  assert (Hf : truthy (extracted w news) = false) by now rewrite H.
  split; [| split; [| split; [| split]]].
  - now rewrite (main_loop_body_no_text w n i news acc Hf).
  - apply no_summarizer_without_text, Hf.
  - apply no_summarizer_without_text, Hf.
  - intros w' H'. apply extracted_of_outcome in H'.
    assert (Hf' : truthy (extracted w' news) = false) by now rewrite H'.
    now rewrite (main_loop_body_no_text w n i news acc Hf),
                (main_loop_body_no_text w' n i news acc Hf').
  - intros w0 t a Hin.
    pose proof (summarizer_calls_have_text w0 t a Hin) as Ht.
    split; [exact Ht |].
    now rewrite trace_summarize_and_add_furigana, Ht.
Qed.

Lemma empty_extraction_is_treated_as_absent_witness :
  let w := Sample.world_empty_page in
  let news := {| title := u "E"; url := u "http://n/e" |} in
  outcome (scrape_article_body w (url news)) = Ok (Some [])
  /\ outcome (main_loop_body w 1 0 news [])
     = Ok ([] ++ [block_header 0 (title news) ++ scrape_failed_notice
                  ++ block_footer (url news)])
  /\ filter is_summarizer_call (trace (main_loop_body w 1 0 news [])) = []
  /\ filter is_summarizer_call (trace (main w)) = [].
Proof.
  intros w news.
  split; [reflexivity |].
  destruct (empty_extraction_is_treated_as_absent w 1 0 news [])
    as (Hb & Hs & _); [reflexivity |].
  repeat split; assumption || reflexivity.
Defined.

(* ------------------------------------------------------------------ *)
(** *** The feed reader *)

Lemma get_latest_news_from_rss_at_most (w : World) (rss_url : str) (count : Z) :
  0 <= count ->
  exists news_list,
    outcome (get_latest_news_from_rss w rss_url count) = Ok news_list
    /\ len news_list <= count.
Proof.
  intro Hc. destruct (feedparser_parse w rss_url) as [entries | e] eqn:E.
  - rewrite (get_latest_news_from_rss_ok w rss_url count E).
    eexists. split; [reflexivity |].
    destruct (forallb complete (slice_to entries count)); [| exact Hc].
    unfold len. rewrite length_map. fold (len (slice_to entries count)).
    rewrite len_slice_to by assumption. lia.
  - exists []. split; [| exact Hc].
    unfold get_latest_news_from_rss. run_step. rewrite E. reflexivity.
Qed.

Lemma forallb_false_exists {A} (f : A -> bool) (l : list A) :
  forallb f l = false <-> exists x, In x l /\ f x = false.
Proof.
  induction l as [| a r IH]; cbn [forallb].
  - split; [discriminate | intros (x & [] & _)].
  - rewrite andb_false_iff, IH. split.
    + intros [Ha | (x & Hin & Hx)].
      * exists a. split; [now left | exact Ha].
      * exists x. split; [now right | exact Hx].
    + intros (x & [<- | Hin] & Hx); [now left |].
      right. now exists x.
Qed.

Lemma slice_to_3 {A} (l : list A) : slice_to l 3 = firstn 3 l.
Proof. apply slice_to_nonneg. lia. Qed.

(** C7, as the code has it.  From a feed of at least 3 entries whose
    first 3 entries each have a title and a link, the feed reader called
    with count 3 returns exactly 3 items: the first 3 entries, in feed
    order, each with the entry's title and link.  When one of the first
    3 entries lacks a title or a link, reading the attribute raises
    inside the [try] and the reader returns the empty list.  For every
    count that is not negative, and whatever the feed, it returns
    normally with at most count items. *)
Theorem feed_reader_takes_first_three
    (w : World) (rss_url : str) (entries : list Entry) :
  feedparser_parse w rss_url = Ok entries ->
  3 <= len entries ->
  ((forall e, In e (firstn 3 entries) -> complete e = true) ->
   exists e1 e2 e3 rest i1 i2 i3,
     entries = e1 :: e2 :: e3 :: rest
     /\ outcome (get_latest_news_from_rss w rss_url 3) = Ok [i1; i2; i3]
     /\ entry_title e1 = Some (title i1) /\ entry_link e1 = Some (url i1)
     /\ entry_title e2 = Some (title i2) /\ entry_link e2 = Some (url i2)
     /\ entry_title e3 = Some (title i3) /\ entry_link e3 = Some (url i3))
  /\ ((exists e, In e (firstn 3 entries) /\ complete e = false) ->
      outcome (get_latest_news_from_rss w rss_url 3) = Ok [])
  /\ forall (w0 : World) (url0 : str) (count : Z),
       0 <= count ->
       exists news_list,
         outcome (get_latest_news_from_rss w0 url0 count) = Ok news_list
         /\ len news_list <= count.
Proof.
  intros H Hlen.
  rewrite (get_latest_news_from_rss_ok w rss_url 3 H), slice_to_3.
  unfold outcome. cbn [fst].
  split; [| split].
  - intro Hall.
    destruct entries as [| e1 [| e2 [| e3 rest]]];
      try (unfold len in Hlen; simpl in Hlen; lia).
    assert (Hc : forallb complete (firstn 3 (e1 :: e2 :: e3 :: rest)) = true)
      by (apply forallb_forall; exact Hall).
    rewrite Hc. cbn [firstn forallb] in Hc.
    apply andb_true_iff in Hc. destruct Hc as (H1 & Hc).
    apply andb_true_iff in Hc. destruct Hc as (H2 & Hc).
    apply andb_true_iff in Hc. destruct Hc as (H3 & _).
    exists e1, e2, e3, rest, (item_of e1), (item_of e2), (item_of e3).
    split; [reflexivity |]. split; [reflexivity |].
    unfold complete, item_of in *.
    destruct (entry_title e1), (entry_link e1); try discriminate H1.
    destruct (entry_title e2), (entry_link e2); try discriminate H2.
    destruct (entry_title e3), (entry_link e3); try discriminate H3.
    repeat split.
  - intro Hex. apply forallb_false_exists in Hex. now rewrite Hex.
  - intros w0 url0 count. apply get_latest_news_from_rss_at_most.
Qed.

Lemma feed_reader_takes_first_three_witness :
  let w := Sample.world_ok in
  feedparser_parse w (YAHOO_RSS_URL w) = Ok Sample.four_entries
  /\ 3 <= len Sample.four_entries
  /\ outcome (get_latest_news_from_rss w (YAHOO_RSS_URL w) 3)
     = Ok [ {| title := u "A"; url := u "http://n/a" |};
            {| title := u "B"; url := u "http://n/b" |};
            {| title := u "C"; url := u "http://n/c" |} ].
Proof.
  intro w.
  split; [reflexivity |]. split; [unfold len; simpl; lia |].
  destruct (feed_reader_takes_first_three w (YAHOO_RSS_URL w)
              (entries := Sample.four_entries))
    as (Hfirst & _); [reflexivity | unfold len; simpl; lia |].
  destruct Hfirst
    as (e1 & e2 & e3 & rest & i1 & i2 & i3 & He & Hout
        & Ht1 & Hl1 & Ht2 & Hl2 & Ht3 & Hl3).
  - intros e [<- | [<- | [<- | []]]]; reflexivity.
  - injection He as <- <- <- _. rewrite Hout.
    destruct i1, i2, i3. cbn [title url] in *.
    injection Ht1 as <-. injection Hl1 as <-.
    injection Ht2 as <-. injection Hl2 as <-.
    injection Ht3 as <-. injection Hl3 as <-.
    reflexivity.
Defined.

(** C7 fails as stated.  A feed of 3 entries whose second entry has no
    title makes the reader return the empty list, not 3 items; and for
    the count -1 a feed of 4 entries gives 3 items, more than the
    count. *)
Lemma feed_reader_three_entries_counterexample :
  feedparser_parse Sample.world_one_untitled (u "http://n/rss")
  = Ok Sample.entries_one_untitled
  /\ len Sample.entries_one_untitled = 3
  /\ outcome (get_latest_news_from_rss Sample.world_one_untitled
                                       (u "http://n/rss") 3)
     = Ok []
  /\ exists news_list,
       outcome (get_latest_news_from_rss Sample.world_ok (u "http://n/rss")
                                         (-1))
       = Ok news_list
       /\ len news_list = 3
       /\ ~ len news_list <= -1.
Proof.
  split; [reflexivity |]. split; [reflexivity |].
  split; [vm_compute; reflexivity |].
  eexists. split; [vm_compute; reflexivity |].
  split; [reflexivity |].
  intro H. vm_compute in H. apply H. reflexivity.
Qed.

(* ------------------------------------------------------------------ *)
(** *** The summarizer *)

(** C8. The summarizer returns normally on every input.  For a text
    that is [None] or empty it returns the fixed message and makes no
    request to the model.  Otherwise, when the request to the model
    raises, or the response has no choice, or the first choice has no
    content, it returns the error prefix followed by the text of the
    exception; when the first choice has a content it returns the
    content stripped. *)
Theorem summarizer_never_raises
    (w : World) (title : str) (article_text : option str) :
  exists s,
    outcome (summarize_and_add_furigana w title article_text) = Ok s
    /\ (truthy article_text = false ->
        s = no_text_message
        /\ filter is_model_call
             (trace (summarize_and_add_furigana w title article_text)) = [])
    /\ (truthy article_text = true ->
        let answer :=
          chat_completions_create w (chat_request title (the article_text)) in
        (forall e, answer = Raise e ->
           s = api_error_prefix ++ exn_str e /\ contains s (exn_str e))
        /\ (answer = Ok [] ->
            s = api_error_prefix ++ u "list index out of range")
        /\ (forall rest, answer = Ok (None :: rest) ->
            s = api_error_prefix
                ++ u "'NoneType' object has no attribute 'strip'")
        /\ (forall text rest, answer = Ok (Some text :: rest) ->
            s = strip text)).
Proof.
  unfold summarize_and_add_furigana. run_step.
  destruct (truthy article_text) eqn:Ht; cbn [negb]; cbv beta iota zeta.
  - destruct (chat_completions_create w _) as [[| [c |] r] | e] eqn:E;
      cbn [fst snd app]; eexists; (split; [reflexivity |]);
      (split; [discriminate |]); intros _;
      repeat split; intros; try discriminate; try congruence.
    + match goal with H : Raise _ = Raise _ |- _ => injection H as <- end.
      apply contains_app_r, contains_refl.
  - cbn [fst snd app]. eexists. split; [reflexivity |].
    split; [intros _; split; reflexivity | discriminate].
Qed.

(* ------------------------------------------------------------------ *)
(** *** The notifier *)

(** [raise_for_status] raises exactly for a status from 400 to 599. *)
Lemma raise_for_status_spec (response : Response) :
  (400 <= status_code response < 600 ->
   exists msg, raise_for_status response = (Raise (RequestException msg), []))
  /\ (~ 400 <= status_code response < 600 ->
      raise_for_status response = (Ok tt, [])).
Proof.
  unfold raise_for_status, raise, ret. cbv zeta.
  destruct (Z.leb_spec 400 (status_code response)),
           (Z.ltb_spec (status_code response) 500),
           (Z.leb_spec 500 (status_code response)),
           (Z.ltb_spec (status_code response) 600);
    cbn [andb]; split; intro Hrange; try lia; try reflexivity;
    eexists; reflexivity.
Qed.

(** The outcome of the notifier when both the user id and the token are
    present, by the answer to its POST. *)
Lemma send_line_message_outcome
    (w : World) (user_id : option str) (message : str) (token : option str) :
  truthy user_id = true ->
  truthy token = true ->
  outcome (send_line_message w user_id message token)
  = match requests_post w push_url (push_headers (the token))
                        (push_data (the user_id) message) with
    | Ok response =>
        if (400 <=? status_code response) && (status_code response <? 600)
        then Ok false else Ok true
    | Raise (RequestException _) => Ok false
    | Raise (Exception msg) => Raise (Exception msg)
    end.
Proof.
  intros Hu Ht. unfold send_line_message. run_step. rewrite Hu, Ht.
  cbn [negb orb]. cbv beta iota zeta.
  destruct (requests_post w _ _ _) as [response | [msg | msg]];
    [| reflexivity | reflexivity].
  destruct (Z.leb_spec 400 (status_code response)),
           (Z.ltb_spec (status_code response) 500),
           (Z.leb_spec 500 (status_code response)),
           (Z.ltb_spec (status_code response) 600);
    cbn [andb]; try lia; reflexivity.
Qed.

(** C9, as the code has it.  When the user id or the token is [None] or
    empty the notifier returns [False] and makes no request.  When both
    are present it makes exactly one POST; it returns [True] exactly
    when the POST is answered with a status outside 400..599, so for
    every 2xx status, and [False] exactly when the status is in 400..599
    or the POST raises a [RequestException]. *)
Theorem notifier_result
    (w : World) (user_id : option str) (message : str) (token : option str) :
  (truthy user_id = false \/ truthy token = false ->
   send_line_message w user_id message token
   = (Ok false, [Enter_send_line_message user_id message token]))
  /\ (truthy user_id = true -> truthy token = true ->
      let answer :=
        requests_post w push_url (push_headers (the token))
                      (push_data (the user_id) message) in
      trace (send_line_message w user_id message token)
      = [Enter_send_line_message user_id message token;
         Do_requests_post push_url (push_headers (the token))
                          (push_data (the user_id) message)]
      /\ (outcome (send_line_message w user_id message token) = Ok true
          <-> exists response,
                answer = Ok response
                /\ ~ 400 <= status_code response < 600)
      /\ (outcome (send_line_message w user_id message token) = Ok false
          <-> (exists response,
                 answer = Ok response /\ 400 <= status_code response < 600)
              \/ exists msg, answer = Raise (RequestException msg))
      /\ (forall response,
            answer = Ok response ->
            200 <= status_code response < 300 ->
            outcome (send_line_message w user_id message token) = Ok true)).
Proof.
  split.
  - intros H. unfold send_line_message. run_step.
    destruct H as [-> | ->]; [| rewrite orb_true_r]; reflexivity.
  - intros Hu Ht answer.
    split; [rewrite trace_send_line_message, Hu, Ht; reflexivity |].
    rewrite (@send_line_message_outcome w user_id message token Hu Ht).
    fold answer.
    destruct answer as [response | [msg | msg]].
    + assert (Hdec :
        400 <= status_code response < 600
        /\ (400 <=? status_code response) && (status_code response <? 600)
           = true
        \/ ~ 400 <= status_code response < 600
           /\ (400 <=? status_code response) && (status_code response <? 600)
              = false).
      { destruct (Z.leb_spec 400 (status_code response)),
                 (Z.ltb_spec (status_code response) 600); cbn [andb];
          [left | right | right | right]; split; try reflexivity; lia. }
      destruct Hdec as [(Hr & ->) | (Hr & ->)]; (split; [| split]).
      * split; [discriminate |].
        intros (r & Hr' & Hn). injection Hr' as <-. tauto.
      * split; [| reflexivity].
        intros _. left. exists response. split; [reflexivity | exact Hr].
      * intros r Hr' Hs. injection Hr' as <-. lia.
      * split; [| reflexivity].
        intros _. exists response. split; [reflexivity | exact Hr].
      * split; [discriminate |].
        intros [(r & Hr' & Hs) | (m & Hm)];
          [injection Hr' as <-; tauto | discriminate Hm].
      * reflexivity.
    + split; [| split].
      * split; [discriminate | intros (r & Hr & _); discriminate Hr].
      * split; [intros _; right; now exists msg | reflexivity].
      * intros r Hr. discriminate Hr.
    + split; [| split].
      * split; [discriminate | intros (r & Hr & _); discriminate Hr].
      * split; [discriminate |].
        intros [(r & Hr & _) | (m & Hm)]; discriminate.
      * intros r Hr. discriminate Hr.
Qed.

(** C9 fails as stated: a POST answered with status 304, which is not a
    2xx status, makes the notifier return [True]. *)
Lemma notifier_true_on_304_counterexample :
  let w := Sample.world_post_304 in
  let user_id := Some (u "U1") in
  let token := Some (u "tok") in
  requests_post w push_url (push_headers (the token))
                (push_data (the user_id) (u "hello"))
  = Ok (Sample.response 304 [])
  /\ ~ 200 <= status_code (Sample.response 304 []) < 300
  /\ send_line_message w user_id (u "hello") token
     = (Ok true,
        [Enter_send_line_message user_id (u "hello") token;
         Do_requests_post push_url (push_headers (the token))
                          (push_data (the user_id) (u "hello"))]).
Proof.
  cbv zeta. split; [reflexivity |]. split; [simpl; lia |].
  vm_compute. reflexivity.
Qed.

Example notifier_200_true :
  outcome (send_line_message Sample.world_ok (Some (u "U1")) (u "hello")
                             (Some (u "tok"))) = Ok true.
Proof. vm_compute. reflexivity. Qed.

Example notifier_500_false :
  send_line_message (Sample.world Sample.four_entries 500)
                    (Some (u "U1")) (u "hello") (Some (u "tok"))
  = (Ok false,
     [Enter_send_line_message (Some (u "U1")) (u "hello") (Some (u "tok"));
      Do_requests_post push_url (push_headers (u "tok"))
                       (push_data (u "U1") (u "hello"))]).
Proof. vm_compute. reflexivity. Qed.

Example notifier_no_token_false :
  send_line_message Sample.world_ok (Some (u "U1")) (u "hello") None
  = (Ok false, [Enter_send_line_message (Some (u "U1")) (u "hello") None])
  /\ send_line_message Sample.world_ok (Some []) (u "hello") (Some (u "tok"))
     = (Ok false,
        [Enter_send_line_message (Some []) (u "hello") (Some (u "tok"))]).
Proof. split; vm_compute; reflexivity. Qed.

(* ------------------------------------------------------------------ *)
(** *** The extractor *)

Section Extractor.

Variable w : World.
Variable url : str.
Variable response : Response.
Variable soup : Soup.

Hypothesis page_answered : requests_get w url 10 = Ok response.
Hypothesis page_status : ~ 400 <= status_code response < 600.
Hypothesis page_parsed : BeautifulSoup w (content response) = Ok soup.

(** What the extractor returns for a page that loaded. *)
Lemma scrape_article_body_loaded :
  outcome (scrape_article_body w url)
  = Ok (Some
          (if negb (truthy_list (selected_paragraphs soup)) then
             match find_main soup with
             | Some main_text => main_text
             | None => soup_get_text soup
             end
           else if len (joined_paragraphs soup) >? 3000
                then slice_to (joined_paragraphs soup) 3000 ++ u "..."
                else joined_paragraphs soup)).
Proof.
  unfold scrape_article_body. run_step. rewrite page_answered.
  destruct (Z.leb_spec 400 (status_code response)),
           (Z.ltb_spec (status_code response) 500),
           (Z.leb_spec 500 (status_code response)),
           (Z.ltb_spec (status_code response) 600);
    cbn [andb]; try lia; cbv beta iota;
    rewrite page_parsed; cbv beta iota zeta;
    fold (selected_paragraphs soup); fold (joined_paragraphs soup);
    destruct (negb (truthy_list (selected_paragraphs soup))); reflexivity.
Qed.

(** X1. When the page loaded and paragraphs are found, a joined text
    longer than 3000 characters is cut to its first 3000 characters
    followed by three dots; a shorter one is returned whole. *)
Lemma paragraph_text_is_capped :
  selected_paragraphs soup <> [] ->
  (3000 < len (joined_paragraphs soup) ->
   outcome (scrape_article_body w url)
   = Ok (Some (firstn (Z.to_nat 3000) (joined_paragraphs soup) ++ u "...")))
  /\ (len (joined_paragraphs soup) <= 3000 ->
      outcome (scrape_article_body w url)
      = Ok (Some (joined_paragraphs soup))).
Proof.
  intro Hne. rewrite scrape_article_body_loaded.
  destruct (selected_paragraphs soup) as [| p r]; [congruence |].
  cbn [truthy_list negb].
  split; intro Hlen.
  - destruct (Z.gtb_spec (len (joined_paragraphs soup)) 3000); [| lia].
    rewrite slice_to_nonneg by lia. reflexivity.
  - destruct (Z.gtb_spec (len (joined_paragraphs soup)) 3000);
      [lia | reflexivity].
Qed.

(** When no paragraph is found, the text of [<main>], or else of the
    whole page, is returned whole, whatever its length. *)
Lemma fallback_text_is_returned_whole :
  selected_paragraphs soup = [] ->
  outcome (scrape_article_body w url)
  = Ok (Some match find_main soup with
             | Some main_text => main_text
             | None => soup_get_text soup
             end).
Proof.
  intro He. rewrite scrape_article_body_loaded, He. reflexivity.
Qed.

End Extractor.

(** C2 on the code.  For a page that loaded with no paragraph of the
    article and a [<main>] region of 3001 characters, the extractor
    returns all 3001 characters: the text is longer than 3000 characters
    and is neither cut nor followed by the three dots.  The cut is made
    only on the path that found paragraphs. *)
Lemma fallback_text_exceeds_cap :
  let w := Sample.world_long_main in
  let text := Sample.long_main_text in
  scrape_article_body w (u "http://n/l")
  = (Ok (Some text),
     [Enter_scrape_article_body (u "http://n/l");
      Do_requests_get (u "http://n/l") 10])
  /\ len text = 3001
  /\ text <> slice_to text 3000 ++ u "..."
  /\ In (Enter_summarize_and_add_furigana (u "L") (Some text))
        (trace (main w)).
Proof.
  cbv zeta. split; [vm_compute; reflexivity |].
  split; [vm_compute; reflexivity |].
  split.
  - intro H. apply (f_equal (@len char)) in H. vm_compute in H. discriminate H.
  - vm_compute. right. right. right. right. left. reflexivity.
Qed.

Example paragraph_text_cut_at_3000 :
  outcome (scrape_article_body Sample.world_long_paragraphs (u "http://n/p"))
  = Ok (Some (repeat 120%N 2000 ++ [LF] ++ repeat 121%N 999 ++ u "...")).
Proof. vm_compute. reflexivity. Qed.

Lemma paragraph_text_is_capped_witness :
  let w := Sample.world_long_paragraphs in
  let soup := Sample.long_paragraphs in
  len (joined_paragraphs soup) = 4001
  /\ outcome (scrape_article_body w (u "http://n/p"))
     = Ok (Some (firstn (Z.to_nat 3000) (joined_paragraphs soup) ++ u "...")).
Proof.
  intros w soup. split; [vm_compute; reflexivity |].
  apply (@paragraph_text_is_capped w (u "http://n/p")
           (Sample.response 200 []) soup).
  - reflexivity.
  - simpl. lia.
  - reflexivity.
  - discriminate.
  - vm_compute. reflexivity.
Defined.

(* ------------------------------------------------------------------ *)
(** *** The run as a whole *)

Lemma filter_sleep_item_trace (w : World) (n i : Z) (news : NewsItem) :
  filter is_sleep (item_trace w n i news)
  = if i <? n - 1 then [Do_time_sleep 1] else [].
Proof.
  rewrite item_trace_eq.
  destruct (truthy (extracted w news)), (i <? n - 1); reflexivity.
Qed.

Lemma filter_sleep_trace_from (w : World) (n i : Z) (l : list NewsItem) :
  i + len l = n ->
  filter is_sleep (trace_from w n i l)
  = repeat (Do_time_sleep 1) (length l - 1).
Proof.
  revert i. induction l as [| news r IH]; intros i Hn; [reflexivity |].
  cbn [trace_from]. rewrite filter_app, filter_sleep_item_trace.
  unfold len in Hn. cbn [length] in Hn.
  rewrite (IH (i + 1)) by (unfold len; lia).
  destruct r as [| news' r'].
  - destruct (Z.ltb_spec i (n - 1)); [cbn [length] in Hn; lia | reflexivity].
  - destruct (Z.ltb_spec i (n - 1)); [| cbn [length] in Hn; lia].
    cbn [length]. rewrite !Nat.sub_succ, !Nat.sub_0_r. reflexivity.
Qed.

(** X2. A turn of the loop ends with a pause of one second exactly when
    its item is not the last; a run over n items pauses n - 1 times,
    each time for one second. *)
Theorem one_second_between_items (w : World) (news_list : list NewsItem) :
  outcome (get_latest_news_from_rss w (YAHOO_RSS_URL w) 3) = Ok news_list ->
  news_list <> [] ->
  filter is_sleep (trace (main w))
  = repeat (Do_time_sleep 1) (length news_list - 1)
  /\ forall (i : Z) (news : NewsItem) (acc : list str),
       filter is_sleep (trace (main_loop_body w (len news_list) i news acc))
       = if i <? len news_list - 1 then [Do_time_sleep 1] else [].
Proof.
  intros H Hne. split.
  - rewrite (main_run_items w H Hne), !filter_app.
    rewrite trace_get_latest_news_from_rss, trace_send_line_message.
    rewrite filter_sleep_trace_from by lia.
    destruct (truthy (LINE_USER_ID w) && truthy (LINE_CHANNEL_ACCESS_TOKEN w));
      cbn [filter is_sleep app]; now rewrite app_nil_r.
  - intros i news acc. rewrite main_loop_body_run.
    apply filter_sleep_item_trace.
Qed.

Lemma one_second_between_items_witness :
  let w := Sample.world_ok in
  filter is_sleep (trace (main w)) = [Do_time_sleep 1; Do_time_sleep 1].
Proof.
  intro w.
  destruct (one_second_between_items w
              (news_list := map item_of (firstn 3 Sample.four_entries)))
    as (Hrun & _); [reflexivity | discriminate |].
  exact Hrun.
Defined.

(** X3. Every run of [main] calls the notifier exactly once and makes at
    most one POST. *)
Theorem notifier_called_once (w : World) :
  length (notifier_calls (trace (main w))) = 1%nat
  /\ (length (filter is_post (trace (main w))) <= 1)%nat.
Proof.
  destruct (get_latest_news_from_rss_run w (YAHOO_RSS_URL w) 3) as (l & Hrun).
  assert (Hout : outcome (get_latest_news_from_rss w (YAHOO_RSS_URL w) 3) = Ok l)
    by now rewrite Hrun.
  assert (Hpost : forall n i items, filter is_post (trace_from w n i items) = []).
  { intros n i items. revert i.
    induction items as [| news r IH]; intro i; [reflexivity |].
    cbn [trace_from]. rewrite filter_app, IH, item_trace_eq.
    destruct (truthy (extracted w news)), (i <? n - 1); reflexivity. }
  destruct l as [| news r].
  - rewrite (main_run_empty w Hout), trace_get_latest_news_from_rss,
      trace_send_line_message.
    destruct (truthy (LINE_USER_ID w) && truthy (LINE_CHANNEL_ACCESS_TOKEN w));
      simpl; split; lia.
  - assert (Hne : news :: r <> []) by discriminate.
    rewrite (notifier_calls_main_items w Hout Hne).
    split; [reflexivity |].
    rewrite (main_run_items w Hout Hne), !filter_app, Hpost.
    rewrite trace_get_latest_news_from_rss, trace_send_line_message.
    destruct (truthy (LINE_USER_ID w) && truthy (LINE_CHANNEL_ACCESS_TOKEN w));
      simpl; lia.
Qed.

(** X4. The feed reader returns normally on every input: the empty list
    when parsing raises and when the feed has no entry. *)
Theorem feed_reader_never_raises (w : World) (rss_url : str) (count : Z) :
  exists news_list,
    outcome (get_latest_news_from_rss w rss_url count) = Ok news_list
    /\ (forall e, feedparser_parse w rss_url = Raise e -> news_list = [])
    /\ (feedparser_parse w rss_url = Ok [] -> news_list = []).
Proof.
  destruct (feedparser_parse w rss_url) as [entries | e] eqn:E.
  - rewrite (get_latest_news_from_rss_ok w rss_url count E).
    eexists. split; [reflexivity |]. split; [intros; discriminate |].
    intro H. injection H as ->.
    assert (Hs : slice_to (@nil Entry) count = [])
      by (unfold slice_to; destruct (count <? 0); apply firstn_nil).
    rewrite Hs. reflexivity.
  - unfold get_latest_news_from_rss. run_step. rewrite E.
    eexists. split; [reflexivity |]. split; intros; congruence.
Qed.

(* ================================================================== *)
(** ** Further properties of the code *)
(* ================================================================== *)

(* ------------------------------------------------------------------ *)
(** *** The extractor, continued *)

Lemma scrape_article_body_request_raised (w : World) (url : str) (e : exn) :
  requests_get w url 10 = Raise e ->
  outcome (scrape_article_body w url) = Ok None.
Proof.
  intro Hget. unfold scrape_article_body. run_step. rewrite Hget. reflexivity.
Qed.

Lemma scrape_article_body_bad_status
    (w : World) (url : str) (response : Response) :
  requests_get w url 10 = Ok response ->
  400 <= status_code response < 600 ->
  outcome (scrape_article_body w url) = Ok None.
Proof.
  intros Hget Hs. unfold scrape_article_body. run_step. rewrite Hget.
  destruct (Z.leb_spec 400 (status_code response)),
           (Z.ltb_spec (status_code response) 500),
           (Z.leb_spec 500 (status_code response)),
           (Z.ltb_spec (status_code response) 600);
    cbn [andb]; try lia; reflexivity.
Qed.

Lemma scrape_article_body_parser_raised
    (w : World) (url : str) (response : Response) (e : exn) :
  requests_get w url 10 = Ok response ->
  BeautifulSoup w (content response) = Raise e ->
  outcome (scrape_article_body w url) = Ok None.
Proof.
  intros Hget Hsoup. unfold scrape_article_body. run_step. rewrite Hget.
  destruct ((400 <=? status_code response) && (status_code response <? 500));
    [reflexivity |].
  destruct ((500 <=? status_code response) && (status_code response <? 600));
    [reflexivity |].
  cbv beta iota. rewrite Hsoup. reflexivity.
Qed.

(** X5. The extractor never raises, and what it returns is decided by
    whether the page loaded.  When the request raised, or the status
    was in 400..599, or the parser raised, it returns [None]; in every
    other case it returns a string. *)
Theorem extractor_none_iff_not_loaded (w : World) (url : str) :
  let not_loaded :=
    (exists e, requests_get w url 10 = Raise e)
    \/ (exists response,
          requests_get w url 10 = Ok response
          /\ (400 <= status_code response < 600
              \/ exists e, BeautifulSoup w (content response) = Raise e)) in
  (outcome (scrape_article_body w url) = Ok None /\ not_loaded)
  \/ (exists text,
        outcome (scrape_article_body w url) = Ok (Some text)
        /\ ~ not_loaded).
Proof.
  cbv zeta.
  destruct (requests_get w url 10) as [response | e] eqn:Hget.
  - destruct (Z.le_gt_cases 400 (status_code response)) as [H4 | H4];
      [destruct (Z.lt_ge_cases (status_code response) 600) as [H6 | H6] |].
    + left. split.
      * apply (scrape_article_body_bad_status w url Hget). lia.
      * right. exists response. split; [reflexivity | left; lia].
    + destruct (BeautifulSoup w (content response)) as [soup | e] eqn:Hsoup.
      * right. eexists. split.
        -- exact (@scrape_article_body_loaded w url response soup Hget
                    ltac:(lia) Hsoup).
        -- intros [(e & He) | (r & Hr & [Hs | (e & He)])];
             [discriminate He | injection Hr as <-; lia |].
           injection Hr as <-. rewrite Hsoup in He. discriminate He.
      * left. split.
        -- exact (scrape_article_body_parser_raised w url Hget Hsoup).
        -- right. exists response. split; [reflexivity |]. right. now exists e.
    + destruct (BeautifulSoup w (content response)) as [soup | e] eqn:Hsoup.
      * right. eexists. split.
        -- exact (@scrape_article_body_loaded w url response soup Hget
                    ltac:(lia) Hsoup).
        -- intros [(e & He) | (r & Hr & [Hs | (e & He)])];
             [discriminate He | injection Hr as <-; lia |].
           injection Hr as <-. rewrite Hsoup in He. discriminate He.
      * left. split.
        -- exact (scrape_article_body_parser_raised w url Hget Hsoup).
        -- right. exists response. split; [reflexivity |]. right. now exists e.
  - left. split.
    + exact (scrape_article_body_request_raised w url Hget).
    + left. now exists e.
Qed.

(** X6. When the page loaded and paragraphs are found, the text
    returned is at most 3003 characters long. *)
Theorem paragraph_text_at_most_3003
    (w : World) (url : str) (response : Response) (soup : Soup) :
  requests_get w url 10 = Ok response ->
  ~ 400 <= status_code response < 600 ->
  BeautifulSoup w (content response) = Ok soup ->
  selected_paragraphs soup <> [] ->
  exists text,
    outcome (scrape_article_body w url) = Ok (Some text)
    /\ len text <= 3003.
Proof.
  intros Hget Hs Hsoup Hne.
  rewrite (@scrape_article_body_loaded w url response soup Hget Hs Hsoup).
  destruct (selected_paragraphs soup) as [| p r]; [congruence |].
  cbn [truthy_list negb].
  destruct (Z.gtb_spec (len (joined_paragraphs soup)) 3000) as [Hgt | Hle].
  - eexists. split; [reflexivity |].
    rewrite len_app, len_slice_to by lia.
    replace (len (u "...")) with 3 by reflexivity. lia.
  - exists (joined_paragraphs soup). split; [reflexivity | lia].
Qed.

Lemma paragraph_text_at_most_3003_witness :
  exists text,
    outcome (scrape_article_body Sample.world_long_paragraphs (u "http://n/p"))
    = Ok (Some text)
    /\ len text <= 3003.
Proof.
  apply (@paragraph_text_at_most_3003 Sample.world_long_paragraphs
           (u "http://n/p") (Sample.response 200 []) Sample.long_paragraphs).
  - reflexivity.
  - simpl. lia.
  - reflexivity.
  - discriminate.
Defined.

Lemma join_no_text (sep : str) (l : list Paragraph) :
  Forall (fun p => p_get_text p = []) l ->
  join sep (map p_get_text (filter (fun p => truthy_list (p_get_text p)) l))
  = [].
Proof.
  induction 1 as [| p r Hp _ IH]; [reflexivity |].
  cbn [filter]. rewrite Hp. cbn [truthy_list]. exact IH.
Qed.

(** X7. When the page loaded and paragraphs are found but every one of
    them has no text, the extractor returns the empty string: it does
    not fall back to the text of [<main>] or of the whole page. *)
Theorem blank_paragraphs_give_empty_text
    (w : World) (url : str) (response : Response) (soup : Soup) :
  requests_get w url 10 = Ok response ->
  ~ 400 <= status_code response < 600 ->
  BeautifulSoup w (content response) = Ok soup ->
  selected_paragraphs soup <> [] ->
  Forall (fun p => p_get_text p = []) (selected_paragraphs soup) ->
  outcome (scrape_article_body w url) = Ok (Some []).
Proof.
  intros Hget Hs Hsoup Hne Hall.
  rewrite (@scrape_article_body_loaded w url response soup Hget Hs Hsoup).
  assert (Hj : joined_paragraphs soup = [])
    by (unfold joined_paragraphs; now apply join_no_text).
  rewrite Hj.
  destruct (selected_paragraphs soup) as [| p r]; [congruence |].
  reflexivity.
Qed.

Lemma blank_paragraphs_give_empty_text_witness :
  find_main SampleEnv.blank_paragraph_page = Some (u "Main text.")
  /\ outcome (scrape_article_body SampleEnv.world_blank_paragraph
                                  (u "http://n/a"))
     = Ok (Some []).
Proof.
  split; [reflexivity |].
  apply (@blank_paragraphs_give_empty_text SampleEnv.world_blank_paragraph
           (u "http://n/a") (Sample.response 200 [])
           SampleEnv.blank_paragraph_page).
  - reflexivity.
  - simpl. lia.
  - reflexivity.
  - discriminate.
  - repeat constructor.
Defined.

(* ------------------------------------------------------------------ *)
(** *** The summarizer, continued *)

Lemma contains_trans (s m x : str) : contains s m -> contains m x -> contains s x.
Proof.
  intros (p & q & ->) (p' & q' & ->).
  exists (p ++ p'), (q' ++ q). now rewrite <- !app_assoc.
Qed.

Lemma len_make_prompt (title article_text : str) :
  len (make_prompt title article_text) = 478 + len title + len article_text.
Proof.
  unfold make_prompt. rewrite !len_app.
  replace (len (concat (map (fun l => indent ++ l) prompt_lines)))
    with 447 by (vm_compute; reflexivity).
  replace (len indent) with 5 by reflexivity.
  replace (len (u "【記事本文】")) with 6 by reflexivity.
  lia.
Qed.

Lemma make_prompt_contains (title article_text : str) :
  contains (make_prompt title article_text) title
  /\ contains (make_prompt title article_text) article_text.
Proof.
  unfold make_prompt. split.
  - do 2 apply contains_app_r. apply contains_app_l, contains_refl.
  - do 7 apply contains_app_r. apply contains_app_l, contains_refl.
Qed.

(** X8. For a text that is neither [None] nor empty the summarizer
    sends exactly one request: model gpt-3.5-turbo, temperature 0.3, a
    system message and one user message.  The user message contains the
    title and the article text as they are, and is 478 characters longer
    than the two together.  For a missing text no request is sent. *)
Theorem summarizer_request_embeds_article
    (w : World) (title : str) (article_text : option str) :
  (truthy article_text = true ->
   exists prompt,
     model_requests (trace (summarize_and_add_furigana w title article_text))
     = [ {| model := u "gpt-3.5-turbo";
            messages := [ (u "system", system_message); (u "user", prompt) ];
            temperature := u "0.3" |} ]
     /\ contains prompt title
     /\ contains prompt (the article_text)
     /\ len prompt = 478 + len title + len (the article_text))
  /\ (truthy article_text = false ->
      model_requests (trace (summarize_and_add_furigana w title article_text))
      = []).
Proof.
  rewrite trace_summarize_and_add_furigana.
  split; intro Ht; rewrite Ht; [| reflexivity].
  exists (make_prompt title (the article_text)).
  split; [reflexivity |].
  split; [apply make_prompt_contains |].
  split; [apply make_prompt_contains | apply len_make_prompt].
Qed.

Lemma lstrip_split (s : str) :
  exists pre, s = pre ++ lstrip s /\ all_space pre.
Proof.
  induction s as [| c r (pre & Hr & Hpre)].
  - exists []. split; [reflexivity | constructor].
  - cbn [lstrip]. destruct (isspace c) eqn:Hc.
    + exists (c :: pre). split; [simpl; now rewrite <- Hr |].
      now constructor.
    + exists []. split; [reflexivity | constructor].
Qed.

Lemma lstrip_head (s : str) (c : char) (r : str) :
  lstrip s = c :: r -> isspace c = false.
Proof.
  induction s as [| d s IH]; [discriminate |].
  cbn [lstrip]. destruct (isspace d) eqn:Hd; [exact IH |].
  intro H. injection H as <- _. exact Hd.
Qed.

(** [strip] removes white space from both ends and nothing else. *)
Lemma strip_spec (s : str) :
  stripped (strip s)
  /\ exists pre post,
       s = pre ++ strip s ++ post /\ all_space pre /\ all_space post.
Proof.
  unfold strip.
  destruct (lstrip_split s) as (pre & Hs & Hpre).
  destruct (lstrip_split (rev (lstrip s))) as (pre2 & Ht & Hpre2).
  set (t := lstrip s) in *. set (r := lstrip (rev t)) in *.
  assert (Ht' : t = rev r ++ rev pre2).
  { rewrite <- (rev_involutive t), Ht, rev_app_distr. reflexivity. }
  split; [split |].
  - intros c rest Hc.
    destruct (rev r) as [| c' rest'] eqn:Hr; [discriminate |].
    injection Hc as <- <-. simpl in Ht'.
    exact (lstrip_head s Ht').
  - intros init c Hc.
    assert (Hr : r = c :: rev init).
    { rewrite <- (rev_involutive r), Hc, rev_app_distr. reflexivity. }
    exact (lstrip_head (rev t) Hr).
  - exists pre, (rev pre2). split; [| split].
    + rewrite <- Ht'. exact Hs.
    + exact Hpre.
    + unfold all_space in *. apply Forall_forall. intros c Hin.
      rewrite Forall_forall in Hpre2. apply Hpre2. now apply in_rev.
Qed.

(** X9. When the model answers, the summarizer returns the content of
    the first choice without the white space at its two ends: the
    content is white space, then the summary, then white space, and the
    summary neither starts nor ends with white space.  Other choices
    are ignored. *)
Theorem summarizer_returns_stripped_content
    (w : World) (title : str) (article_text : option str)
    (content0 : str) (others : list (option str)) :
  truthy article_text = true ->
  chat_completions_create w (chat_request title (the article_text))
  = Ok (Some content0 :: others) ->
  exists s pre post,
    outcome (summarize_and_add_furigana w title article_text) = Ok s
    /\ content0 = pre ++ s ++ post
    /\ all_space pre /\ all_space post
    /\ stripped s.
Proof.
  intros Ht Hchat.
  destruct (strip_spec content0) as (Hstripped & pre & post & Hc & Hpre & Hpost).
  exists (strip content0), pre, post.
  split; [| repeat split; try assumption; apply Hstripped].
  unfold summarize_and_add_furigana. run_step. rewrite Ht.
  cbn [negb]. cbv beta iota zeta. rewrite Hchat. reflexivity.
Qed.

Lemma summarizer_returns_stripped_content_witness :
  exists s pre post,
    outcome (summarize_and_add_furigana Sample.world_ok (u "A")
                                        (Some (u "text")))
    = Ok s
    /\ u "  summary " = pre ++ s ++ post
    /\ all_space pre /\ all_space post
    /\ stripped s.
Proof.
  apply (@summarizer_returns_stripped_content Sample.world_ok (u "A")
           (Some (u "text")) (u "  summary ") []).
  - reflexivity.
  - reflexivity.
Defined.

(* ------------------------------------------------------------------ *)
(** *** The run as a whole, continued *)

Lemma outcome_then_ret {A B} (m : M A) (b : B) :
  outcome (bind m (fun _ => ret b))
  = match outcome m with
    | Ok _ => Ok b
    | Raise e => Raise e
    end.
Proof. destruct m as [[a | e] t]; reflexivity. Qed.

Lemma scraped_urls_app (a b : list event) :
  scraped_urls (a ++ b) = scraped_urls a ++ scraped_urls b.
Proof.
  induction a as [| ev a IH]; [reflexivity |].
  destruct ev; simpl; rewrite IH; reflexivity.
Qed.

Lemma page_requests_app (a b : list event) :
  page_requests (a ++ b) = page_requests a ++ page_requests b.
Proof.
  induction a as [| ev a IH]; [reflexivity |].
  destruct ev; simpl; rewrite IH; reflexivity.
Qed.

Lemma model_requests_app (a b : list event) :
  model_requests (a ++ b) = model_requests a ++ model_requests b.
Proof.
  induction a as [| ev a IH]; [reflexivity |].
  destruct ev; simpl; rewrite IH; reflexivity.
Qed.

Lemma feed_requests_app (a b : list event) :
  feed_requests (a ++ b) = feed_requests a ++ feed_requests b.
Proof.
  induction a as [| ev a IH]; [reflexivity |].
  destruct ev; simpl; rewrite IH; reflexivity.
Qed.

Section WholeRun.

Variable w : World.

(** The message [main] passes to the notifier. *)
Lemma main_message :
  exists news_list message,
    outcome (get_latest_news_from_rss w (YAHOO_RSS_URL w) 3) = Ok news_list
    /\ len news_list <= 3
    /\ message
       = (if truthy_list news_list
          then check_length
                 (assemble (len news_list) (blocks_from w 0 news_list))
          else no_news_message)
    /\ trace (main w)
       = trace (get_latest_news_from_rss w (YAHOO_RSS_URL w) 3)
         ++ trace_from w (len news_list) 0 news_list
         ++ trace (send_line_message w (LINE_USER_ID w) message
                                     (LINE_CHANNEL_ACCESS_TOKEN w))
    /\ outcome (main w)
       = match outcome (send_line_message w (LINE_USER_ID w) message
                                          (LINE_CHANNEL_ACCESS_TOKEN w)) with
         | Ok _ => Ok tt
         | Raise e => Raise e
         end.
Proof.
  destruct (@get_latest_news_from_rss_at_most w (YAHOO_RSS_URL w) 3)
    as (l & Hout & Hlen); [lia |].
  exists l. eexists. split; [exact Hout |]. split; [exact Hlen |].
  split; [reflexivity |].
  destruct l as [| news r].
  - split; [exact (main_run_empty w Hout) |].
    unfold main.
    rewrite (M_eta (get_latest_news_from_rss w (YAHOO_RSS_URL w) 3)), Hout.
    rewrite bind_ok. cbn [truthy_list negb]. cbv beta iota.
    unfold outcome at 1. cbn [fst]. apply outcome_then_ret.
  - assert (Hne : news :: r <> []) by discriminate.
    split; [exact (main_run_items w Hout Hne) |].
    unfold main.
    rewrite (M_eta (get_latest_news_from_rss w (YAHOO_RSS_URL w) 3)), Hout.
    rewrite bind_ok. cbn [truthy_list negb]. cbv beta iota.
    rewrite for_enumerate_run, bind_ok. cbv zeta.
    unfold outcome at 1. cbn [fst]. unfold outcome at 1. cbn [fst].
    rewrite app_nil_l. apply outcome_then_ret.
Qed.

Lemma scraped_urls_trace_from (n i : Z) (l : list NewsItem) :
  scraped_urls (trace_from w n i l) = map url l
  /\ page_requests (trace_from w n i l) = map (fun news => (url news, 10)) l
  /\ model_requests (trace_from w n i l)
     = map (fun news => chat_request (title news) (the (extracted w news)))
           (filter (fun news => truthy (extracted w news)) l)
  /\ feed_requests (trace_from w n i l) = [].
Proof.
  revert i. induction l as [| news r IH]; intro i; [repeat split |].
  destruct (IH (i + 1)) as (H1 & H2 & H3 & H4).
  cbn [trace_from map filter].
  rewrite scraped_urls_app, page_requests_app, model_requests_app,
    feed_requests_app, H1, H2, H3, H4, item_trace_eq.
  destruct (truthy (extracted w news)), (i <? n - 1); repeat split.
Qed.

End WholeRun.

(** X10. A run of [main] raises only when both LINE settings are
    present and the POST raises an exception that is no
    [RequestException]; that exception is then the one [main] raises.
    In every other case, whatever failed before and whether or not the
    message could be sent, [main] returns normally. *)
Theorem main_raises_only_from_the_post (w : World) :
  exists message,
    notifier_calls (trace (main w))
    = [(LINE_USER_ID w, message, LINE_CHANNEL_ACCESS_TOKEN w)]
    /\ (forall e,
          outcome (main w) = Raise e
          <-> truthy (LINE_USER_ID w) = true
              /\ truthy (LINE_CHANNEL_ACCESS_TOKEN w) = true
              /\ is_RequestException e = false
              /\ requests_post w push_url
                   (push_headers (the (LINE_CHANNEL_ACCESS_TOKEN w)))
                   (push_data (the (LINE_USER_ID w)) message)
                 = Raise e)
    /\ (outcome (main w) = Ok tt \/ exists e, outcome (main w) = Raise e).
Proof.
  destruct (main_message w) as (l & message & Hout & _ & _ & Htr & Hmain).
  exists message. split.
  - rewrite Htr, !notifier_calls_app, trace_get_latest_news_from_rss,
      notifier_calls_trace_from, notifier_calls_send. reflexivity.
  - rewrite Hmain.
    destruct (truthy (LINE_USER_ID w)) eqn:Hu;
      [destruct (truthy (LINE_CHANNEL_ACCESS_TOKEN w)) eqn:Ht |].
    + rewrite (@send_line_message_outcome w (LINE_USER_ID w) message
                 (LINE_CHANNEL_ACCESS_TOKEN w) Hu Ht).
      destruct (requests_post w _ _ _) as [response | [msg | msg]].
      * destruct ((400 <=? status_code response)
                  && (status_code response <? 600));
          (split; [| left; reflexivity]); intro e;
          (split; [discriminate | intros (_ & _ & _ & H); discriminate H]).
      * split; [| left; reflexivity]. intro e.
        split; [discriminate |].
        intros (_ & _ & He & H). injection H as <-. discriminate He.
      * split; [| right; now eexists]. intro e. split.
        -- intro H. injection H as <-. repeat split; reflexivity.
        -- intros (_ & _ & _ & H). injection H as <-. reflexivity.
    + assert (Hs : outcome (send_line_message w (LINE_USER_ID w) message
                              (LINE_CHANNEL_ACCESS_TOKEN w)) = Ok false).
      { unfold send_line_message. run_step. rewrite Hu, Ht. reflexivity. }
      rewrite Hs. split; [| left; reflexivity]. intro e.
      split; [discriminate | intros (_ & H & _); discriminate H].
    + assert (Hs : outcome (send_line_message w (LINE_USER_ID w) message
                              (LINE_CHANNEL_ACCESS_TOKEN w)) = Ok false).
      { unfold send_line_message. run_step. rewrite Hu. reflexivity. }
      rewrite Hs. split; [| left; reflexivity]. intro e.
      split; [discriminate | intros (H & _); discriminate H].
Qed.

Example main_crashes_with_the_post :
  outcome (main SampleEnv.world_post_crash) = Raise (Exception (u "bad header"))
  /\ outcome (main (Sample.world Sample.four_entries 500)) = Ok tt.
Proof. split; vm_compute; reflexivity. Qed.

(** X11. A run of [main] parses the configured feed once, takes at
    most 3 items, and enters the extractor once per item, in feed
    order, each time requesting the item's url with a timeout of 10
    seconds; no other page is requested. *)
Theorem each_article_requested_once_in_order (w : World) :
  exists news_list,
    outcome (get_latest_news_from_rss w (YAHOO_RSS_URL w) 3) = Ok news_list
    /\ len news_list <= 3
    /\ feed_requests (trace (main w)) = [YAHOO_RSS_URL w]
    /\ scraped_urls (trace (main w)) = map url news_list
    /\ page_requests (trace (main w))
       = map (fun news => (url news, 10)) news_list.
Proof.
  destruct (main_message w) as (l & message & Hout & Hlen & _ & Htr & _).
  exists l. split; [exact Hout |]. split; [exact Hlen |].
  destruct (scraped_urls_trace_from w (len l) 0 l) as (H1 & H2 & _ & H4).
  rewrite Htr, !feed_requests_app, !scraped_urls_app, !page_requests_app.
  rewrite H1, H2, H4, trace_get_latest_news_from_rss, trace_send_line_message.
  destruct (truthy (LINE_USER_ID w) && truthy (LINE_CHANNEL_ACCESS_TOKEN w));
    cbn [feed_requests scraped_urls page_requests app];
    rewrite ?app_nil_r; repeat split.
Qed.

(** X12. A run of [main] sends one request to the model for each item
    whose extraction gave a non-empty text, in feed order, built from
    that item's title and text, and no other request: at most 3. *)
Theorem model_asked_once_per_extracted_article (w : World) :
  exists news_list,
    outcome (get_latest_news_from_rss w (YAHOO_RSS_URL w) 3) = Ok news_list
    /\ model_requests (trace (main w))
       = map (fun news =>
                chat_request (title news)
                  (the match outcome (scrape_article_body w (url news)) with
                       | Ok text => text
                       | Raise _ => None
                       end))
             (filter (fun news =>
                        truthy match outcome (scrape_article_body w (url news))
                               with
                               | Ok text => text
                               | Raise _ => None
                               end)
                     news_list)
    /\ len (model_requests (trace (main w))) <= 3.
Proof.
  destruct (main_message w) as (l & message & Hout & Hlen & _ & Htr & _).
  exists l. split; [exact Hout |].
  destruct (scraped_urls_trace_from w (len l) 0 l) as (_ & _ & H3 & _).
  assert (Hm : model_requests (trace (main w))
               = map (fun news =>
                        chat_request (title news) (the (extracted w news)))
                     (filter (fun news => truthy (extracted w news)) l)).
  { rewrite Htr, !model_requests_app, H3, trace_get_latest_news_from_rss,
      trace_send_line_message.
    destruct (truthy (LINE_USER_ID w) && truthy (LINE_CHANNEL_ACCESS_TOKEN w));
      cbn [model_requests app]; now rewrite app_nil_r. }
  split; [exact Hm |].
  rewrite Hm. unfold len in *. rewrite length_map.
  pose proof (filter_length_le (fun news => truthy (extracted w news)) l).
  lia.
Qed.

(* ------------------------------------------------------------------ *)
(** *** The message *)

Lemma contains_join (sep : str) (l : list str) (b : str) :
  In b l -> contains (join sep l) b.
Proof.
  induction l as [| x r IH]; [intros [] |].
  intros [-> | Hin]; cbn [join]; destruct r as [| y r'].
  - apply contains_refl.
  - apply contains_app_l, contains_refl.
  - destruct Hin.
  - do 2 apply contains_app_r. exact (IH Hin).
Qed.

Lemma assemble_contains (n : Z) (all_summaries : list str) (b : str) :
  In b all_summaries -> contains (assemble n all_summaries) b.
Proof.
  intro Hin. unfold assemble. cbv zeta.
  do 6 apply contains_app_r. apply contains_app_l.
  now apply contains_join.
Qed.

Lemma in_blocks_from (w : World) (i : Z) (l : list NewsItem) (news : NewsItem) :
  In news l -> exists j, In (item_block w j news) (blocks_from w i l).
Proof.
  revert i. induction l as [| x r IH]; intros i; [intros [] |].
  intros [-> | Hin].
  - exists i. now left.
  - destruct (IH (i + 1) Hin) as (j & Hj). exists j. now right.
Qed.

(** X13. When the message passed to the notifier is at most 4800
    characters long, it contains the title and the url of every item of
    the run. *)
Theorem untruncated_message_names_every_article
    (w : World) (news_list : list NewsItem) (message : str) :
  outcome (get_latest_news_from_rss w (YAHOO_RSS_URL w) 3) = Ok news_list ->
  news_list <> [] ->
  notifier_calls (trace (main w))
  = [(LINE_USER_ID w, message, LINE_CHANNEL_ACCESS_TOKEN w)] ->
  len message <= 4800 ->
  forall news,
    In news news_list ->
    contains message (title news) /\ contains message (url news).
Proof.
  intros Hout Hne Hcall Hlen news Hin.
  rewrite (notifier_calls_main_items w Hout Hne) in Hcall.
  injection Hcall as Hm.
  set (digest := assemble (len news_list) (blocks_from w 0 news_list)) in *.
  assert (Hd : message = digest).
  { destruct (Z.le_gt_cases (len digest) 4800) as [Hle | Hgt].
    - now rewrite <- Hm, check_length_short.
    - destruct (check_length_long _ Hgt) as (_ & H28). rewrite Hm in H28. lia. }
  destruct (in_blocks_from w 0 news_list news Hin) as (j & Hj).
  pose proof (assemble_contains (len news_list) _ _ Hj) as Hb.
  fold digest in Hb. rewrite Hd. split.
  - exact (contains_trans Hb (item_block_contains_title w j news)).
  - exact (contains_trans Hb (item_block_contains_url w j news)).
Qed.

Lemma untruncated_message_names_every_article_witness :
  exists message,
    notifier_calls (trace (main Sample.world_ok))
    = [(Some (u "U1"), message, Some (u "tok"))]
    /\ len message <= 4800
    /\ contains message (u "B")
    /\ contains message (u "http://n/b").
Proof.
  eexists. split; [vm_compute; reflexivity |].
  split; [vm_compute; discriminate |].
  apply (@untruncated_message_names_every_article Sample.world_ok
           (map item_of (firstn 3 Sample.four_entries)) _)
    with (news := {| title := u "B"; url := u "http://n/b" |}).
  - reflexivity.
  - discriminate.
  - vm_compute. reflexivity.
  - vm_compute. discriminate.
  - right. left. reflexivity.
Defined.

Lemma assemble_banner (n : Z) (all_summaries : list str) :
  assemble n all_summaries
  = banner n
    ++ u "==================================" ++ [LF; LF]
    ++ join separator all_summaries
    ++ [LF; LF] ++ u "==================================".
Proof. unfold assemble, banner. cbv zeta. now rewrite <- !app_assoc. Qed.

Lemma len_banner (n : Z) : 1 <= n <= 3 -> len (banner n) = 18.
Proof.
  intro Hn. assert (H : n = 1 \/ n = 2 \/ n = 3) by lia.
  destruct H as [-> | [-> | ->]]; reflexivity.
Qed.

(** The length check keeps a prefix of at most 4800 characters. *)
Lemma check_length_prefix (b t : str) :
  len b <= 4800 -> exists rest, check_length (b ++ t) = b ++ rest.
Proof.
  intro Hb. unfold check_length.
  destruct (len (b ++ t) >? 4800); [| now exists t].
  rewrite slice_to_nonneg by lia. rewrite firstn_app.
  rewrite (@firstn_all2 _ (Z.to_nat 4800) b) by (unfold len in Hb; lia).
  rewrite <- app_assoc. eexists. reflexivity.
Qed.

(** X14. In a run over a non-empty news list the message passed to the
    notifier, truncated or not, starts with the banner line that states
    the number of items of the run, which is 1, 2 or 3. *)
Theorem message_starts_with_item_count
    (w : World) (news_list : list NewsItem) (message : str) :
  outcome (get_latest_news_from_rss w (YAHOO_RSS_URL w) 3) = Ok news_list ->
  news_list <> [] ->
  notifier_calls (trace (main w))
  = [(LINE_USER_ID w, message, LINE_CHANNEL_ACCESS_TOKEN w)] ->
  1 <= len news_list <= 3
  /\ exists rest,
       message
       = u "🌞 今朝の厳選ニュース " ++ str_of_int (len news_list)
         ++ u "本 🗞️" ++ [LF] ++ rest.
Proof.
  intros Hout Hne Hcall.
  assert (Hn : 1 <= len news_list <= 3).
  { destruct (@get_latest_news_from_rss_at_most w (YAHOO_RSS_URL w) 3)
      as (l & Hl & Hlen); [lia |].
    rewrite Hout in Hl. injection Hl as <-.
    destruct news_list as [| news r]; [congruence |].
    unfold len in *. cbn [length] in *. lia. }
  split; [exact Hn |].
  rewrite (notifier_calls_main_items w Hout Hne) in Hcall.
  injection Hcall as <-.
  rewrite assemble_banner.
  destruct (@check_length_prefix (banner (len news_list))
              (u "==================================" ++ [LF; LF]
               ++ join separator (blocks_from w 0 news_list)
               ++ [LF; LF] ++ u "==================================")
              ltac:(rewrite (len_banner Hn); lia))
    as (rest & ->).
  exists rest. unfold banner. now rewrite <- !app_assoc.
Qed.

Lemma message_starts_with_item_count_witness :
  exists message rest,
    notifier_calls (trace (main Sample.world_long_title))
    = [(Some (u "U1"), message, Some (u "tok"))]
    /\ len message = 4828
    /\ message = u "🌞 今朝の厳選ニュース " ++ u "1" ++ u "本 🗞️" ++ [LF] ++ rest.
Proof.
  assert (Hcall :
    notifier_calls (trace (main Sample.world_long_title))
    = [(LINE_USER_ID Sample.world_long_title,
        check_length
          (assemble 1 (blocks_from Sample.world_long_title 0
                         (map item_of Sample.long_title_entries))),
        LINE_CHANNEL_ACCESS_TOKEN Sample.world_long_title)])
    by (vm_compute; reflexivity).
  destruct (@message_starts_with_item_count Sample.world_long_title
              (map item_of Sample.long_title_entries) _
              ltac:(vm_compute; reflexivity) ltac:(discriminate) Hcall)
    as (_ & rest & Hrest).
  eexists. exists rest. split; [exact Hcall |].
  split; [vm_compute; reflexivity | exact Hrest].
Defined.

(* ------------------------------------------------------------------ *)
(** *** The feed reader, continued *)

(** The items made from complete entries carry their titles and links. *)
Lemma items_of_complete (entries : list Entry) :
  (forall e, In e entries -> complete e = true) ->
  Forall2 (fun e item =>
             entry_title e = Some (title item)
             /\ entry_link e = Some (url item))
          entries (map item_of entries).
Proof.
  induction entries as [| e r IH]; intro Hall; [constructor |].
  cbn [map]. constructor.
  - pose proof (Hall e (or_introl eq_refl)) as He.
    unfold complete, item_of in *.
    destruct (entry_title e), (entry_link e); try discriminate He.
    split; reflexivity.
  - apply IH. intros x Hx. apply Hall. now right.
Qed.

(** X15. From a feed that parsed, the feed reader takes the entries
    [entries[:count]]: the first count entries for a count that is not
    negative (all of them when the feed has at most count entries),
    and all but the last -count for a negative count.  When each entry
    taken has a title and a link it returns one item per entry taken,
    in feed order, with that title and link; when an entry taken lacks
    one of them it returns the empty list. *)
Theorem feed_reader_follows_the_slice
    (w : World) (rss_url : str) (count : Z) (entries : list Entry) :
  feedparser_parse w rss_url = Ok entries ->
  exists taken news_list,
    outcome (get_latest_news_from_rss w rss_url count) = Ok news_list
    /\ (0 <= count ->
        taken = firstn (Z.to_nat count) entries
        /\ len taken = Z.min count (len entries))
    /\ (len entries <= count -> taken = entries)
    /\ (count < 0 ->
        taken = firstn (length entries - Z.to_nat (- count)) entries)
    /\ ((forall e, In e taken -> complete e = true) ->
        Forall2 (fun e item =>
                   entry_title e = Some (title item)
                   /\ entry_link e = Some (url item))
                taken news_list)
    /\ ((exists e, In e taken /\ complete e = false) -> news_list = []).
Proof.
  intro Hparse. exists (slice_to entries count).
  rewrite (get_latest_news_from_rss_ok w rss_url count Hparse).
  eexists. split; [reflexivity |].
  split; [| split; [| split; [| split]]].
  - intro Hc. rewrite slice_to_nonneg by assumption.
    split; [reflexivity |].
    unfold len. rewrite length_firstn. lia.
  - intro Hc. now apply slice_to_all.
  - intro Hc. unfold slice_to.
    destruct (Z.ltb_spec count 0) as [_ | Hge]; [| lia].
    replace (Z.to_nat (len entries + count))
      with (length entries - Z.to_nat (- count))%nat by (unfold len; lia).
    reflexivity.
  - intro Hall.
    assert (Hc : forallb complete (slice_to entries count) = true)
      by (apply forallb_forall; exact Hall).
    rewrite Hc. now apply items_of_complete.
  - intro Hex. apply forallb_false_exists in Hex. now rewrite Hex.
Qed.

Lemma feed_reader_follows_the_slice_witness :
  outcome (get_latest_news_from_rss Sample.world_ok (u "http://n/rss") 9)
  = Ok (map item_of Sample.four_entries)
  /\ outcome (get_latest_news_from_rss Sample.world_ok (u "http://n/rss") 0)
     = Ok []
  /\ outcome (get_latest_news_from_rss Sample.world_ok (u "http://n/rss") (-1))
     = Ok (map item_of (firstn 3 Sample.four_entries))
  /\ outcome (get_latest_news_from_rss Sample.world_one_untitled
                                       (u "http://n/rss") 2)
     = Ok [].
Proof.
  split; [| split; [| split]].
  - reflexivity.
  - reflexivity.
  - reflexivity.
  - destruct (@feed_reader_follows_the_slice Sample.world_one_untitled
                (u "http://n/rss") 2 Sample.entries_one_untitled eq_refl)
      as (taken & l & Hout & Htaken & _ & _ & _ & Hempty).
    rewrite Hout. f_equal. apply Hempty.
    destruct (Htaken ltac:(lia)) as (-> & _).
    eexists. split; [right; left; reflexivity | reflexivity].
Defined.

(* ------------------------------------------------------------------ *)
(** *** The blocks, continued *)

(** X16. The blocks are numbered from 1 in feed order and have one
    layout: a header line with the number and the title, a body, and a
    last line with the url.  The body is the failure notice when the
    extractor gave no text, and else what the summarizer returned. *)
Theorem blocks_are_numbered_from_one (w : World) (news_list : list NewsItem) :
  exists all_summaries,
    outcome (for_enumerate (main_loop_body w (len news_list)) 0 news_list [])
    = Ok all_summaries
    /\ forall j item,
         nth_error news_list j = Some item ->
         exists body,
           nth_error all_summaries j
           = Some (u "📰 **記事 " ++ str_of_int (Z.of_nat j + 1) ++ u "**："
                   ++ title item ++ [LF] ++ body
                   ++ [LF] ++ u "🔗 記事URL: " ++ url item)
           /\ (forall text,
                 outcome (scrape_article_body w (url item)) = Ok text ->
                 (truthy text = false -> body = scrape_failed_notice)
                 /\ (truthy text = true ->
                     outcome (summarize_and_add_furigana w (title item) text)
                     = Ok body)).
Proof.
  exists (blocks_from w 0 news_list).
  split; [now rewrite for_enumerate_run |].
  intros j item Hj.
  exists (if truthy (extracted w item) then summary w item
          else scrape_failed_notice).
  split.
  - rewrite nth_error_blocks_from, Hj. cbn [option_map].
    unfold item_block, block_header, block_footer.
    rewrite Z.add_0_l, <- !app_assoc. reflexivity.
  - intros text Htext. rewrite (extracted_of_outcome w item Htext).
    split; intro Ht; rewrite Ht; [reflexivity |].
    unfold summary. rewrite (extracted_of_outcome w item Htext).
    destruct (summarize_and_add_furigana_run w (title item) text) as (s & ->).
    reflexivity.
Qed.

(** X17. When the request to the model raises for an item whose text
    was extracted, the turn of the loop still returns normally: the
    item's block holds the error prefix and the text of the exception
    between the header and the url line. *)
Theorem model_failure_stays_in_its_block
    (w : World) (n i : Z) (news : NewsItem) (acc : list str)
    (text : str) (e : exn) :
  outcome (scrape_article_body w (url news)) = Ok (Some text) ->
  text <> [] ->
  chat_completions_create w (chat_request (title news) text) = Raise e ->
  outcome (main_loop_body w n i news acc)
  = Ok (acc ++ [block_header i (title news)
                ++ (api_error_prefix ++ exn_str e)
                ++ block_footer (url news)]).
Proof.
  intros Htext Hne Hchat. rewrite main_loop_body_run.
  unfold item_block, summary.
  rewrite (extracted_of_outcome w news Htext).
  assert (Ht : truthy (Some text) = true)
    by (destruct text; [now elim Hne | reflexivity]).
  rewrite Ht.
  unfold summarize_and_add_furigana. run_step. rewrite Ht.
  cbn [negb the]. cbv beta iota zeta. rewrite Hchat. reflexivity.
Qed.

Lemma model_failure_stays_in_its_block_witness :
  outcome (main_loop_body SampleEnv.world_model_down 3 0
             {| title := u "A"; url := u "http://n/a" |} [])
  = Ok ([] ++ [block_header 0 (u "A")
               ++ (api_error_prefix ++ u "rate limit")
               ++ block_footer (u "http://n/a")]).
Proof.
  apply (@model_failure_stays_in_its_block SampleEnv.world_model_down 3 0
           {| title := u "A"; url := u "http://n/a" |} []
           (u "First." ++ [LF] ++ u "Second.") (Exception (u "rate limit"))).
  - vm_compute. reflexivity.
  - discriminate.
  - reflexivity.
Defined.

(* ------------------------------------------------------------------ *)
(** *** Start-up and the settings *)

Lemma filter_post_trace_from (w : World) (n i : Z) (l : list NewsItem) :
  filter is_post (trace_from w n i l) = [].
Proof.
  revert i. induction l as [| news r IH]; intro i; [reflexivity |].
  cbn [trace_from]. rewrite filter_app, IH, item_trace_eq.
  destruct (truthy (extracted w news)), (i <? n - 1); reflexivity.
Qed.

(** What a run of [main] asks of the outside, by kind of request. *)
Lemma main_requests (w : World) :
  exists news_list message,
    outcome (get_latest_news_from_rss w (YAHOO_RSS_URL w) 3) = Ok news_list
    /\ feed_requests (trace (main w)) = [YAHOO_RSS_URL w]
    /\ page_requests (trace (main w))
       = map (fun news => (url news, 10)) news_list
    /\ model_requests (trace (main w))
       = map (fun news => chat_request (title news) (the (extracted w news)))
             (filter (fun news => truthy (extracted w news)) news_list)
    /\ filter is_post (trace (main w))
       = (if truthy (LINE_USER_ID w) && truthy (LINE_CHANNEL_ACCESS_TOKEN w)
          then [Do_requests_post push_url
                  (push_headers (the (LINE_CHANNEL_ACCESS_TOKEN w)))
                  (push_data (the (LINE_USER_ID w)) message)]
          else [])
    /\ outcome (main w)
       = match outcome (send_line_message w (LINE_USER_ID w) message
                                          (LINE_CHANNEL_ACCESS_TOKEN w)) with
         | Ok _ => Ok tt
         | Raise e => Raise e
         end.
Proof.
  destruct (main_message w) as (l & message & Hout & _ & _ & Htr & Hmain).
  exists l, message. split; [exact Hout |].
  destruct (scraped_urls_trace_from w (len l) 0 l) as (_ & H2 & H3 & H4).
  rewrite Htr, !feed_requests_app, !page_requests_app, !model_requests_app,
    !filter_app, H2, H3, H4, filter_post_trace_from,
    trace_get_latest_news_from_rss, trace_send_line_message.
  destruct (truthy (LINE_USER_ID w) && truthy (LINE_CHANNEL_ACCESS_TOKEN w));
    cbn [feed_requests page_requests model_requests filter is_post app];
    rewrite ?app_nil_r; repeat split; exact Hmain.
Qed.

(** The settings do not change what the outside answers. *)
Lemma configure_same_outside (environ : Environ) (outside : World) :
  (forall rss_url count,
     get_latest_news_from_rss (configure environ outside) rss_url count
     = get_latest_news_from_rss outside rss_url count)
  /\ (forall news,
        extracted (configure environ outside) news = extracted outside news).
Proof. split; reflexivity. Qed.


Example script_startup_ex :
  script SampleEnv.no_key SampleEnv.OpenAI_ok Sample.world_ok = Exited
  /\ script SampleEnv.full (fun _ => Raise (Exception (u "bad key")))
            Sample.world_ok = Exited
  /\ (exists m,
        script SampleEnv.key_only SampleEnv.OpenAI_ok Sample.world_ok = Ran m
        /\ feed_requests (trace m) = [DEFAULT_RSS_URL])
  /\ (exists m,
        script SampleEnv.full SampleEnv.OpenAI_ok Sample.world_ok = Ran m
        /\ feed_requests (trace m) = [u "http://n/other"]).
Proof.
  split; [reflexivity |]. split; [reflexivity |].
  split; eexists; (split; [reflexivity | vm_compute; reflexivity]).
Qed.

(** X19. The LINE settings are checked only at the end of a run.  When
    LINE_USER_ID or LINE_CHANNEL_ACCESS_TOKEN is unset or empty, the
    run parses the same feed, requests the same pages and sends the
    same requests to the model as a run with other LINE settings; it
    then makes no POST and returns normally. *)
Theorem line_settings_are_checked_last
    (environ environ' : Environ) (outside : World) :
  environ (u "YAHOO_RSS_URL") = environ' (u "YAHOO_RSS_URL") ->
  truthy (environ (u "LINE_USER_ID")) = false
  \/ truthy (environ (u "LINE_CHANNEL_ACCESS_TOKEN")) = false ->
  let run := main (configure environ outside) in
  let run' := main (configure environ' outside) in
  filter is_post (trace run) = []
  /\ outcome run = Ok tt
  /\ feed_requests (trace run) = feed_requests (trace run')
  /\ page_requests (trace run) = page_requests (trace run')
  /\ model_requests (trace run) = model_requests (trace run').
Proof.
  intros Hurl Hline run run'. subst run run'.
  destruct (main_requests (configure environ outside))
    as (l & message & Hout & Hfeed & Hpage & Hmodel & Hpost & Hmain).
  destruct (main_requests (configure environ' outside))
    as (l' & message' & Hout' & Hfeed' & Hpage' & Hmodel' & _ & _).
  destruct (configure_same_outside environ outside) as (Hget & _).
  destruct (configure_same_outside environ' outside) as (Hget' & _).
  assert (Hsame : YAHOO_RSS_URL (configure environ outside)
                  = YAHOO_RSS_URL (configure environ' outside)).
  { cbn [YAHOO_RSS_URL configure]. unfold environ_get_default.
    now rewrite Hurl. }
  assert (Hl : l = l').
  { rewrite Hget in Hout. rewrite Hget', <- Hsame, Hout in Hout'.
    now injection Hout'. }
  subst l'.
  assert (Hfalse : truthy (LINE_USER_ID (configure environ outside))
                   && truthy (LINE_CHANNEL_ACCESS_TOKEN
                                (configure environ outside)) = false).
  { cbn [LINE_USER_ID LINE_CHANNEL_ACCESS_TOKEN configure].
    destruct Hline as [-> | ->]; [reflexivity | apply andb_false_r]. }
  split; [now rewrite Hpost, Hfalse |].
  split.
  - rewrite Hmain.
    assert (Hs : send_line_message (configure environ outside)
                   (LINE_USER_ID (configure environ outside)) message
                   (LINE_CHANNEL_ACCESS_TOKEN (configure environ outside))
                 = (Ok false,
                    [Enter_send_line_message
                       (LINE_USER_ID (configure environ outside)) message
                       (LINE_CHANNEL_ACCESS_TOKEN
                          (configure environ outside))])).
    { unfold send_line_message. run_step.
      rewrite <- negb_andb, Hfalse. reflexivity. }
    now rewrite Hs.
  - rewrite Hfeed, Hfeed', Hpage, Hpage', Hmodel, Hmodel', Hsame.
    repeat split.
Qed.

Lemma line_settings_are_checked_last_witness :
  let run := main (configure SampleEnv.key_only Sample.world_ok) in
  let run' := main (configure SampleEnv.no_key Sample.world_ok) in
  filter is_post (trace run) = []
  /\ length (filter is_post (trace run')) = 1%nat
  /\ outcome run = Ok tt
  /\ length (model_requests (trace run)) = 2%nat
  /\ model_requests (trace run) = model_requests (trace run').
Proof.
  intros run run'.
  destruct (@line_settings_are_checked_last SampleEnv.key_only
              SampleEnv.no_key Sample.world_ok eq_refl (or_introl eq_refl))
    as (Hpost & Hout & _ & _ & Hmodel).
  split; [exact Hpost |]. split; [vm_compute; reflexivity |].
  split; [exact Hout |]. split; [vm_compute; reflexivity | exact Hmodel].
Defined.

(* ------------------------------------------------------------------ *)
(** *** What is sent *)

(** X20. When both LINE settings are present, a run of [main] makes
    exactly one POST: to the push address, with a JSON content type and
    the token as bearer, and with a body addressed to the user id that
    holds one message of type text whose text is the message passed to
    the notifier. *)
Theorem one_push_carries_the_message (w : World) (user_id token : str) :
  LINE_USER_ID w = Some user_id ->
  LINE_CHANNEL_ACCESS_TOKEN w = Some token ->
  user_id <> [] ->
  token <> [] ->
  exists message,
    notifier_calls (trace (main w)) = [(Some user_id, message, Some token)]
    /\ filter is_post (trace (main w))
       = [Do_requests_post
            (u "https://api.line.me/v2/bot/message/push")
            [ (u "Content-Type", u "application/json");
              (u "Authorization", u "Bearer " ++ token) ]
            {| to := user_id;
               push_messages :=
                 [ {| msg_type := u "text"; msg_text := message |} ] |}].
Proof.
  intros Hu Ht Hune Htne.
  destruct (main_message w) as (l & message & _ & _ & _ & Htr & _).
  destruct (main_requests w) as (l' & message' & _ & _ & _ & _ & Hpost & _).
  exists message.
  assert (Hcall : notifier_calls (trace (main w))
                  = [(LINE_USER_ID w, message, LINE_CHANNEL_ACCESS_TOKEN w)]).
  { rewrite Htr, !notifier_calls_app, trace_get_latest_news_from_rss,
      notifier_calls_trace_from, notifier_calls_send. reflexivity. }
  split; [now rewrite Hcall, Hu, Ht |].
  assert (Hposts : filter is_post (trace (main w))
                   = filter is_post
                       (trace (send_line_message w (LINE_USER_ID w) message
                                 (LINE_CHANNEL_ACCESS_TOKEN w)))).
  { rewrite Htr, !filter_app, trace_get_latest_news_from_rss,
      filter_post_trace_from. reflexivity. }
  rewrite Hposts, trace_send_line_message, Hu, Ht.
  destruct user_id as [| c r]; [congruence |].
  destruct token as [| c' r']; [congruence |].
  reflexivity.
Qed.

Lemma one_push_carries_the_message_witness :
  exists message,
    notifier_calls (trace (main Sample.world_ok))
    = [(Some (u "U1"), message, Some (u "tok"))]
    /\ filter is_post (trace (main Sample.world_ok))
       = [Do_requests_post
            (u "https://api.line.me/v2/bot/message/push")
            [ (u "Content-Type", u "application/json");
              (u "Authorization", u "Bearer " ++ u "tok") ]
            {| to := u "U1";
               push_messages :=
                 [ {| msg_type := u "text"; msg_text := message |} ] |}].
Proof.
  apply (@one_push_carries_the_message Sample.world_ok (u "U1") (u "tok")).
  - reflexivity.
  - reflexivity.
  - discriminate.
  - discriminate.
Defined.

Lemma banner_head (n : Z) : exists rest, banner n = 127774%N :: rest.
Proof.
  assert (H : u "🌞 今朝の厳選ニュース "
              = 127774%N :: tl (u "🌞 今朝の厳選ニュース "))
    by (vm_compute; reflexivity).
  unfold banner. rewrite H, <- app_comm_cons. eexists. reflexivity.
Qed.

Lemma no_news_message_head : exists rest, no_news_message = 20170%N :: rest.
Proof. exists (tl no_news_message). vm_compute. reflexivity. Qed.

(** A digest starts with the banner, the fallback text does not. *)
Lemma digest_is_not_fallback (n : Z) (all_summaries : list str) :
  1 <= n <= 3 -> check_length (assemble n all_summaries) <> no_news_message.
Proof.
  intros Hn Hm. rewrite assemble_banner in Hm.
  destruct (@check_length_prefix (banner n)
              (u "==================================" ++ [LF; LF]
               ++ join separator all_summaries
               ++ [LF; LF] ++ u "==================================")
              ltac:(rewrite (len_banner Hn); lia))
    as (rest & Hrest).
  rewrite Hrest in Hm.
  destruct (banner_head n) as (b & Hb).
  destruct no_news_message_head as (f & Hf).
  rewrite Hb, Hf, <- app_comm_cons in Hm. discriminate Hm.
Qed.

(** X21. The message passed to the notifier is the fixed fallback text
    exactly when the feed reader had nothing to return: parsing the
    feed raised, or gave no entry, or one of the first 3 entries lacks
    a title or a link.  In every other run the message is a digest,
    which starts with the banner. *)
Theorem fallback_iff_no_feed (w : World) :
  notifier_calls (trace (main w))
  = [(LINE_USER_ID w, no_news_message, LINE_CHANNEL_ACCESS_TOKEN w)]
  <-> feedparser_parse w (YAHOO_RSS_URL w) = Ok []
      \/ (exists e, feedparser_parse w (YAHOO_RSS_URL w) = Raise e)
      \/ (exists entries entry,
            feedparser_parse w (YAHOO_RSS_URL w) = Ok entries
            /\ In entry (firstn 3 entries)
            /\ (entry_title entry = None \/ entry_link entry = None)).
Proof.
  assert (Hfallback :
    outcome (get_latest_news_from_rss w (YAHOO_RSS_URL w) 3) = Ok [] ->
    notifier_calls (trace (main w))
    = [(LINE_USER_ID w, no_news_message, LINE_CHANNEL_ACCESS_TOKEN w)]).
  { intro Hout. rewrite (main_run_empty w Hout), notifier_calls_app,
      trace_get_latest_news_from_rss, notifier_calls_send. reflexivity. }
  assert (Hincomplete : forall e : Entry,
    complete e = false <-> entry_title e = None \/ entry_link e = None).
  { intro e. unfold complete.
    destruct (entry_title e), (entry_link e); split; intro H;
      try discriminate H; try (destruct H as [H | H]; discriminate H);
      auto. }
  destruct (feedparser_parse w (YAHOO_RSS_URL w)) as [entries | e] eqn:Hfeed.
  - pose proof (get_latest_news_from_rss_ok w (YAHOO_RSS_URL w) 3 Hfeed)
      as Hrun.
    rewrite slice_to_3 in Hrun.
    destruct (forallb complete (firstn 3 entries)) eqn:Hc.
    + destruct entries as [| entry r].
      * split; [intros _; now left |]. intros _.
        apply Hfallback. now rewrite Hrun.
      * (* complete entries: a digest is sent *)
        set (l := map item_of (firstn 3 (entry :: r))) in Hrun.
        assert (Hout : outcome (get_latest_news_from_rss w (YAHOO_RSS_URL w) 3)
                       = Ok l) by now rewrite Hrun.
        assert (Hne : l <> []) by (subst l; discriminate).
        assert (Hn : 1 <= len l <= 3).
        { destruct (@get_latest_news_from_rss_at_most w (YAHOO_RSS_URL w) 3)
            as (l0 & Hl0 & Hlen); [lia |].
          rewrite Hout in Hl0. injection Hl0 as <-.
          destruct l as [| news r0]; [congruence |].
          unfold len in *. cbn [length] in *. lia. }
        split.
        -- intro Hcall. exfalso.
           rewrite (notifier_calls_main_items w Hout Hne) in Hcall.
           apply (@digest_is_not_fallback (len l) (blocks_from w 0 l) Hn).
           injection Hcall as Hm. exact Hm.
        -- intros [H | [(e & H) | (es & e & H & Hin & He)]];
             [discriminate H | discriminate H |].
           injection H as <-. exfalso.
           rewrite forallb_forall in Hc. apply Hincomplete in He.
           rewrite (Hc e Hin) in He. discriminate He.
    + split.
      * intros _. right. right.
        apply forallb_false_exists in Hc. destruct Hc as (e & Hin & He).
        exists entries, e. split; [reflexivity |]. split; [exact Hin |].
        now apply Hincomplete.
      * intros _. apply Hfallback. now rewrite Hrun.
  - (* parsing raised *)
    split; [intros _; right; left; now exists e |]. intros _.
    apply Hfallback.
    unfold get_latest_news_from_rss. run_step. rewrite Hfeed. reflexivity.
Qed.

Example fallback_for_an_untitled_entry :
  notifier_calls (trace (main Sample.world_one_untitled))
  = [(Some (u "U1"), no_news_message, Some (u "tok"))].
Proof. vm_compute. reflexivity. Qed.
